(** * Fritzing parts service: connector-position reconciliation

    A shallow embedding of [backend/services/fritzing_service.py] and the
    properties its specification states about it.

    Conventions of the embedding.
    - A Python [str] is a [string], one character per code point; the model
      covers text whose code points lie below 256 (Latin-1).
    - A Python [float] is a binary64 primitive float; [int] is [Z].
    - A [dict] with a fixed set of keys is a record; a key that may be absent
      is an [option] field.
    - An exception is a value of [exn]; a computation that may raise returns
      a [result].
    - Filesystem and network calls are events of a small free monad [IO];
      [xml.etree.ElementTree] is represented by the tree it builds.
    - Calls to [logger] have no influence on control flow or on the values
      returned and are left out. *)

From Stdlib Require Import ZArith List String Ascii Bool Lia PeanoNat.
From Stdlib Require Import PrimFloat FloatOps Uint63.
Import ListNotations.

(* Decimal literals such as 93.6 stand for the nearest binary64 value, as
   they do in Python. *)
Set Warnings "-inexact-float".

Local Open Scope list_scope.
Local Open Scope string_scope.

(* ===================================================================== *)
(** ** Python strings *)
(* ===================================================================== *)

Module Str.

Definition code (c : ascii) : nat := nat_of_ascii c.

Definition between (lo hi : nat) (c : ascii) : bool :=
  (lo <=? code c)%nat && (code c <=? hi)%nat.

(** [str.isspace] on one character, for code points below 256: the
    characters [\s] matches and [str.split()] separates on. *)
Definition is_space (c : ascii) : bool :=
  between 9 13 c || between 28 32 c || (code c =? 133)%nat || (code c =? 160)%nat.

(** [\d] of [re] on a [str] pattern, for code points below 256. *)
Definition is_digit (c : ascii) : bool := between 48 57 c.

(** [str.lower] on one character: A-Z, and the Latin-1 capitals
    U+00C0..U+00DE except the multiplication sign U+00D7. *)
Definition lower_char (c : ascii) : ascii :=
  if between 65 90 c || (between 192 222 c && negb (code c =? 215)%nat)
  then ascii_of_nat (code c + 32) else c.

Fixpoint lower (s : string) : string :=
  match s with
  | EmptyString => EmptyString
  | String c t => String (lower_char c) (lower t)
  end.

Fixpoint startswith (p s : string) : bool :=
  match p, s with
  | EmptyString, _ => true
  | String a p', String b s' => Ascii.eqb a b && startswith p' s'
  | String _ _, EmptyString => false
  end.

(** [needle in hay]. *)
Fixpoint contains (needle hay : string) : bool :=
  startswith needle hay ||
  match hay with
  | EmptyString => false
  | String _ t => contains needle t
  end.

Fixpoint rev_acc (s acc : string) : string :=
  match s with
  | EmptyString => acc
  | String c t => rev_acc t (String c acc)
  end.

Definition rev (s : string) : string := rev_acc s EmptyString.

Definition endswith (suffix s : string) : bool :=
  startswith (rev suffix) (rev s).

(** [s.replace(old, new)] for a non-empty [old]: occurrences are replaced
    from the left and do not overlap.  [skip] counts the characters of an
    occurrence still to be dropped. *)
Fixpoint replace_from (old new : string) (skip : nat) (s : string) : string :=
  match s with
  | EmptyString => EmptyString
  | String c t =>
      match skip with
      | S k => replace_from old new k t
      | O =>
          if startswith old s
          then new ++ replace_from old new (String.length old - 1) t
          else String c (replace_from old new 0 t)
      end
  end.

Definition replace (old new s : string) : string := replace_from old new 0 s.

(** [s.split()]: the maximal runs of non-whitespace characters.  [cur] is
    the run being read, reversed. *)
Fixpoint split_from (cur : string) (s : string) : list string :=
  match s with
  | EmptyString =>
      match cur with EmptyString => [] | _ => [rev cur] end
  | String c t =>
      if is_space c
      then match cur with
           | EmptyString => split_from EmptyString t
           | _ => rev cur :: split_from EmptyString t
           end
      else split_from (String c cur) t
  end.

Definition split (s : string) : list string := split_from EmptyString s.

Fixpoint take (n : nat) (s : string) : string :=
  match n, s with
  | S k, String c t => String c (take k t)
  | _, _ => EmptyString
  end.

Fixpoint drop (n : nat) (s : string) : string :=
  match n, s with
  | S k, String _ t => drop k t
  | _, _ => s
  end.

(** Length of the longest prefix whose characters all satisfy [cls]. *)
Fixpoint run_length (cls : ascii -> bool) (s : string) : nat :=
  match s with
  | String c t => if cls c then S (run_length cls t) else 0
  | EmptyString => 0
  end.

(** Truth value of a [str]: non-empty. *)
Definition truthy (s : string) : bool :=
  match s with EmptyString => false | _ => true end.

End Str.

(* ===================================================================== *)
(** ** Exceptions *)
(* ===================================================================== *)

Inductive exn : Set :=
| TypeError
| ValueError
| ParseError
| OSError
| ClientError.

Inductive result (A : Type) : Type :=
| Ok (a : A)
| Raise (e : exn).

Arguments Ok {A} a.
Arguments Raise {A} e.

Definition rbind {A B : Type} (r : result A) (k : A -> result B) : result B :=
  match r with
  | Ok a => k a
  | Raise e => Raise e
  end.

(** [try: body / except Exception: handler-value]. *)
Definition try_except {A : Type} (r : result A) (fallback : A) : A :=
  match r with
  | Ok a => a
  | Raise _ => fallback
  end.

Declare Scope result_scope.
Delimit Scope result_scope with result.
Notation "x <- r ;; k" := (rbind r (fun x => k))
  (at level 61, r at next level, right associativity) : result_scope.
Notation "' p <- r ;; k" := (rbind r (fun x => let p := x in k))
  (at level 61, p pattern, r at next level, right associativity) : result_scope.

(* ===================================================================== *)
(** ** Numbers: [float(str)] and the values a coordinate can hold *)
(* ===================================================================== *)

Module PyFloat.

Local Open Scope Z_scope.

Definition digit_val (c : ascii) : Z := Z.of_nat (Str.code c) - 48.

(** A run of decimal digits in which single underscores may separate two
    digits.  [n] counts the digits of the run read so far; the result is
    the accumulated value, the digit count and the unread rest. *)
Fixpoint digits (acc : Z) (n : nat) (s : string) : Z * nat * string :=
  match s with
  | String c t =>
      if Str.is_digit c then digits (10 * acc + digit_val c) (S n) t
      else if Ascii.eqb c "_" then
        match n, t with
        | S _, String c' t' =>
            if Str.is_digit c'
            then digits (10 * acc + digit_val c') (S n) t'
            else (acc, n, s)
        | _, _ => (acc, n, s)
        end
      else (acc, n, s)
  | EmptyString => (acc, n, s)
  end.

Definition sign (s : string) : bool * string :=
  match s with
  | String "-" t => (true, t)
  | String "+" t => (false, t)
  | _ => (false, s)
  end.

(** What follows the mantissa: nothing, or [e]/[E], an optional sign and
    at least one digit. *)
Definition exponent (s : string) : option Z :=
  match s with
  | EmptyString => Some 0
  | String c t =>
      if Ascii.eqb c "e" || Ascii.eqb c "E" then
        let '(neg, t') := sign t in
        let '(v, n, rest) := digits 0 0 t' in
        match n, rest with
        | S _, EmptyString => Some (if neg then - v else v)
        | _, _ => None
        end
      else None
  end.

(** A decimal numeral [m * 10^e]: digits, an optional point, digits, an
    optional exponent, with at least one digit in the mantissa. *)
Definition decimal (s : string) : option (Z * Z) :=
  let '(i, ni, r1) := digits 0 0 s in
  let '(m, nf, r2) :=
    match r1 with
    | String "." t => digits i 0 t
    | _ => (i, 0%nat, r1)
    end in
  match (ni + nf)%nat with
  | O => None
  | S _ =>
      match exponent r2 with
      | Some e => Some (m, e - Z.of_nat nf)
      | None => None
      end
  end.

(** The binary64 value nearest to [num / den] (both positive), ties to
    even: the quotient is cut to 53 bits, or to a multiple of 2^-1074. *)
Definition round_ratio (num den : Z) : float :=
  let g := Z.log2 num - Z.log2 den in
  let above := if g >=? 0 then den * 2 ^ g <=? num else den <=? num * 2 ^ (- g) in
  let e0 := if above then g else g - 1 in
  let s := Z.max (e0 - 52) (-1074) in
  let n' := if s >=? 0 then num else num * 2 ^ (- s) in
  let d' := if s >=? 0 then den * 2 ^ s else den in
  let q := n' / d' in
  let r := n' mod d' in
  let q' := if 2 * r <? d' then q
            else if d' <? 2 * r then q + 1
            else if Z.even q then q else q + 1 in
  Z.ldexp (PrimFloat.of_uint63 (Uint63.of_Z q')) s.

(** [m * 10^e] as a binary64.  The two range tests only avoid computing
    powers of ten that cannot matter: 2^l <= m < 2^(l+1) and
    8^e <= 10^e give overflow in the first case and a value below half
    the least subnormal in the second. *)
Definition of_decimal (m e : Z) : float :=
  if m =? 0 then PrimFloat.zero
  else
    let l := Z.log2 m in
    if (0 <=? e) && (1024 <=? l + 3 * e) then PrimFloat.infinity
    else if (e <? 0) && (l + 1 + 3 * e <=? -1075) then PrimFloat.zero
    else if 0 <=? e then round_ratio (m * 10 ^ e) 1
    else round_ratio m (10 ^ (- e)).

(** Characters [float] strips at both ends. *)
Definition is_strip (c : ascii) : bool :=
  Str.between 9 13 c || Str.between 32 32 c || Str.between 133 133 c
  || Str.between 160 160 c.

Fixpoint lstrip (s : string) : string :=
  match s with
  | String c t => if is_strip c then lstrip t else s
  | EmptyString => s
  end.

Definition strip (s : string) : string :=
  Str.rev (lstrip (Str.rev (lstrip s))).

Definition special (s : string) : option float :=
  let l := Str.lower s in
  if String.eqb l "inf" || String.eqb l "infinity" then Some PrimFloat.infinity
  else if String.eqb l "nan" then Some PrimFloat.nan
  else None.

(** [float(s)] for a [str] argument. *)
Definition float (s : string) : result PrimFloat.float :=
  let '(neg, body) := sign (strip s) in
  let signed (f : PrimFloat.float) := if neg then PrimFloat.opp f else f in
  match special body with
  | Some f => Ok (signed f)
  | None =>
      match decimal body with
      | Some (m, e) => Ok (signed (of_decimal m e))
      | None => Raise ValueError
      end
  end.

End PyFloat.

(** A value stored under ['x'] or ['y']: the [int] literal [0] the
    metadata parser writes, or a [float] read from a graphic. *)
Inductive number : Set :=
| PyInt (z : Z)
| PyFloat (f : PrimFloat.float).

(* ===================================================================== *)
(** ** The two regular expressions of the source *)
(* ===================================================================== *)

Module Re.

(** The pattern constructs the source uses: a literal character, an
    optional literal character, and a greedy repetition of a character
    class with a least count, capturing or not. *)
Inductive atom : Type :=
| Lit (c : ascii)
| Opt (c : ascii)
| Many (cls : ascii -> bool) (least : nat) (capture : bool).

Definition pattern := list atom.

(** Match [r] at the start of [s], with backtracking: a repetition first
    takes the longest run and gives characters back one at a time.  The
    result lists the captured groups in order. *)
Fixpoint match_here (r : pattern) (s : string) {struct r}
  : option (list string) :=
  match r with
  | [] => Some []
  | Lit c :: r' =>
      match s with
      | String c' t => if Ascii.eqb c c' then match_here r' t else None
      | EmptyString => None
      end
  | Opt c :: r' =>
      let taken :=
        match s with
        | String c' t => if Ascii.eqb c c' then match_here r' t else None
        | EmptyString => None
        end in
      match taken with
      | Some g => Some g
      | None => match_here r' s
      end
  | Many cls least capture :: r' =>
      (fix give_back (k : nat) : option (list string) :=
         let here :=
           if (least <=? k)%nat
           then match match_here r' (Str.drop k s) with
                | Some g => Some (if capture then Str.take k s :: g else g)
                | None => None
                end
           else None in
         match here, k with
         | Some g, _ => Some g
         | None, S k' => give_back k'
         | None, O => None
         end) (Str.run_length cls s)
  end.

(** [re.search]: the match at the leftmost position that has one. *)
Fixpoint search (r : pattern) (s : string) : option (list string) :=
  match match_here r s with
  | Some g => Some g
  | None =>
      match s with
      | String _ t => search r t
      | EmptyString => None
      end
  end.

(** The class [[\d.-]]. *)
Definition digit_dot_minus (c : ascii) : bool :=
  Str.is_digit c || Ascii.eqb c "." || Ascii.eqb c "-".

(** The class [[\d.]]. *)
Definition digit_dot (c : ascii) : bool :=
  Str.is_digit c || Ascii.eqb c ".".

(** [r'M\s*([\d.-]+)\s*,?\s*([\d.-]+)'] *)
Definition move_to : pattern :=
  [ Lit "M"; Many Str.is_space 0 false; Many digit_dot_minus 1 true;
    Many Str.is_space 0 false; Opt ","; Many Str.is_space 0 false;
    Many digit_dot_minus 1 true ].

(** [r'([\d.]+)'] *)
Definition first_number : pattern := [ Many digit_dot 1 true ].

End Re.

(* ===================================================================== *)
(** ** Element trees *)
(* ===================================================================== *)

(** What [ElementTree] builds from a document: a tag, the attributes, the
    text before the first child ([None] when there is none) and the
    children in document order. *)
#[warnings="-register-all"] Inductive Element : Type :=
| Elem (tag : string) (attrib : list (string * string))
       (text : option string) (children : list Element).

Module ET.

Definition tag (e : Element) : string :=
  match e with Elem t _ _ _ => t end.

Definition attrib (e : Element) : list (string * string) :=
  match e with Elem _ a _ _ => a end.

Definition text (e : Element) : option string :=
  match e with Elem _ _ t _ => t end.

Definition children (e : Element) : list Element :=
  match e with Elem _ _ _ c => c end.

(** [elem.attrib[key]], [None] when the key is absent. *)
Fixpoint lookup (key : string) (a : list (string * string)) : option string :=
  match a with
  | [] => None
  | (k, v) :: a' => if String.eqb k key then Some v else lookup key a'
  end.

(** [key in elem.attrib] *)
Definition has (key : string) (e : Element) : bool :=
  match lookup key (attrib e) with Some _ => true | None => false end.

(** [elem.get(key)] *)
Definition get (e : Element) (key : string) : option string :=
  lookup key (attrib e).

(** [elem.get(key, default)] *)
Definition get_or (e : Element) (key default : string) : string :=
  match get e key with Some v => v | None => default end.

(** [elem.findall(tag)]: the children with that tag, in order. *)
Definition findall (e : Element) (t : string) : list Element :=
  filter (fun c => String.eqb (tag c) t) (children e).

(** [elem.find(tag)]: the first child with that tag. *)
Definition find (e : Element) (t : string) : option Element :=
  List.find (fun c => String.eqb (tag c) t) (children e).

(** [elem.iter()]: the element, then its descendants, in document
    order. *)
Fixpoint iter (e : Element) : list Element :=
  match e with
  | Elem _ _ _ cs => e :: flat_map iter cs
  end.

End ET.

(* ===================================================================== *)
(** ** Data *)
(* ===================================================================== *)

(** One entry of [FritzingComponent.connectors].  [parse_connectors]
    writes the first seven keys; the reconciler adds the last two. *)
Record Connector : Type := mkConnector {
  c_id : string;
  c_name : string;
  c_description : option string;
  c_type : string;
  c_svgId : string;
  c_x : number;
  c_y : number;
  c_svgWidth : option PrimFloat.float;
  c_svgHeight : option PrimFloat.float
}.

(** One entry of the list [parse_connector_positions] returns. *)
Record SvgConnector : Type := mkSvgConnector {
  sc_id : string;
  sc_x : number;
  sc_y : number
}.

Record FritzingComponent : Type := mkFritzingComponent {
  component_id : string;
  title : option string;
  description : option string;
  category : string;
  tags : list string;
  icon_url : string;
  breadboard_url : string;
  connectors : list Connector;
  properties : list (string * string)
}.

Record FritzingService : Type := mkFritzingService {
  repo_path : string;
  base_url : string;
  components_cache : list FritzingComponent;
  loaded : bool
}.

(** [FritzingService.__init__] *)
Definition init : FritzingService :=
  {| repo_path := "./backend/fritzing-parts";
     base_url := "https://raw.githubusercontent.com/fritzing/fritzing-parts/develop";
     components_cache := [];
     loaded := false |}.

Definition set_repo_path (self : FritzingService) (p : string) : FritzingService :=
  {| repo_path := p;
     base_url := base_url self;
     components_cache := components_cache self;
     loaded := loaded self |}.

Definition set_cache (self : FritzingService) (cs : list FritzingComponent)
  : FritzingService :=
  {| repo_path := repo_path self;
     base_url := base_url self;
     components_cache := cs;
     loaded := true |}.

(* ===================================================================== *)
(** ** Filesystem and network: a free monad of events *)
(* ===================================================================== *)

(** The calls the service makes to the outside, each with the type of its
    answer.  [Walk] answers with the (directory, file names) pairs
    [os.walk] yields before it stops; an error during the walk shows as a
    shorter answer. *)
Inductive Event : Type -> Type :=
| PathExists (p : string) : Event bool
| MakeDirs (p : string) : Event (result unit)
| Walk (dir : string) : Event (list (string * list string))
| ParseFile (p : string) : Event (result Element)
| ReadText (p : string) : Event (result string)
| HttpGet (url : string) : Event (result (Z * result string)).

Inductive IO (A : Type) : Type :=
| Ret (a : A)
| Vis (X : Type) (e : Event X) (k : X -> IO A).

Arguments Ret {A} a.
Arguments Vis {A X} e k.

Fixpoint bind {A B : Type} (p : IO A) (k : A -> IO B) : IO B :=
  match p with
  | Ret a => k a
  | Vis e h => Vis e (fun x => bind (h x) k)
  end.

Definition call {X : Type} (e : Event X) : IO X := Vis e Ret.

Declare Scope io_scope.
Delimit Scope io_scope with io.
Notation "x <- p ;; k" := (bind p (fun x => k))
  (at level 61, p at next level, right associativity) : io_scope.
Notation "' q <- p ;; k" := (bind p (fun x => let q := x in k))
  (at level 61, q pattern, p at next level, right associativity) : io_scope.

(** [for x in l: s = body(x, s)] *)
Fixpoint for_each {A S : Type} (l : list A) (body : A -> S -> IO S) (s : S)
  : IO S :=
  match l with
  | [] => Ret s
  | x :: l' => bind (body x s) (for_each l' body)
  end.

(** An outside world of type [W] answers every event and moves on. *)
Definition handler (W : Type) : Type := forall X : Type, Event X -> W -> X * W.

(** An event without its answer type, for traces. *)
Inductive io_call : Type :=
| Called (X : Type) (e : Event X).

Arguments Called {X} e.

(** Run a program against a world: the value, the final world and the
    calls made, in order. *)
Fixpoint run {W A : Type} (h : handler W) (p : IO A) (w : W)
  : A * W * list io_call :=
  match p with
  | Ret a => (a, w, [])
  | Vis e k =>
      let '(x, w1) := h _ e w in
      let '(a, w2, t) := run h (k x) w1 in
      (a, w2, Called e :: t)
  end.

Definition value {W A : Type} (r : A * W * list io_call) : A := fst (fst r).
Definition world {W A : Type} (r : A * W * list io_call) : W := snd (fst r).
Definition trace {W A : Type} (r : A * W * list io_call) : list io_call := snd r.

(* ===================================================================== *)
(** ** [os.path] *)
(* ===================================================================== *)

Module OsPath.

(** The part of [p] after its last slash. *)
Fixpoint tail_name (p : string) : string :=
  match p with
  | EmptyString => EmptyString
  | String c t =>
      if Str.contains "/" t then tail_name t
      else if Ascii.eqb c "/" then t else p
  end.

(** [os.path.basename(p)] has one positional parameter: a call with any
    other number of arguments raises [TypeError]. *)
Definition basename (args : list string) : result string :=
  match args with
  | [p] => Ok (tail_name p)
  | _ => Raise TypeError
  end.

Definition join2 (path b : string) : string :=
  if Str.startswith "/" b then b
  else if negb (Str.truthy path) || Str.endswith "/" path then path ++ b
  else path ++ "/" ++ b.

(** [os.path.join(a, *p)] *)
Definition join (a : string) (p : list string) : string :=
  fold_left join2 p a.

End OsPath.

(* ===================================================================== *)
(** ** The metadata parser *)
(* ===================================================================== *)

Definition any_in (terms : list string) (s : string) : bool :=
  existsb (fun term => Str.contains term s) terms.

(** [extract_category] *)
Definition extract_category (file_path : string) : result string :=
  (filename <- OsPath.basename [file_path; ".fzp"] ;;
   let filename := Str.lower filename in
   Ok (if any_in ["resistor"; "capacitor"; "inductor"] filename then "Basic"
       else if any_in ["led"; "diode"; "transistor"] filename then "Semiconductors"
       else if any_in ["arduino"; "raspberry"; "microcontroller"] filename
            then "Microcontrollers"
       else if any_in ["sensor"; "accelerometer"; "gyro"] filename then "Sensors"
       else if any_in ["motor"; "servo"; "actuator"] filename then "Actuators"
       else if any_in ["switch"; "button"; "potentiometer"] filename then "Input"
       else if any_in ["speaker"; "display"; "lcd"] filename then "Output"
       else if any_in ["connector"; "header"; "pin"] filename then "Connectors"
       else if any_in ["power"; "battery"; "regulator"] filename then "Power"
       else "Miscellaneous"))%result.

(** The ['svgId'] of a connector: the [svgId] attribute of the [p] element
    under [views/breadboardView], [''] when any step is missing. *)
Definition connector_svg_id (connector : Element) : string :=
  match ET.find connector "views" with
  | Some views =>
      match ET.find views "breadboardView" with
      | Some breadboard_view =>
          match ET.find breadboard_view "p" with
          | Some p_elem => ET.get_or p_elem "svgId" ""
          | None => ""
          end
      | None => ""
      end
  | None => ""
  end.

Definition parse_connector (connector : Element) : Connector :=
  {| c_id := ET.get_or connector "id" "";
     c_name := ET.get_or connector "name" "";
     c_description :=
       match ET.find connector "description" with
       | Some description_elem => ET.text description_elem
       | None => Some ""
       end;
     c_type := ET.get_or connector "type" "unknown";
     c_svgId := connector_svg_id connector;
     c_x := PyInt 0;
     c_y := PyInt 0;
     c_svgWidth := None;
     c_svgHeight := None |}.

(** [parse_connectors] *)
Definition parse_connectors (connectors_elem : option Element) : list Connector :=
  match connectors_elem with
  | None => []
  | Some ce => map parse_connector (ET.findall ce "connector")
  end.

(** [d[key] = v] on a dict kept in insertion order. *)
Fixpoint dict_set (d : list (string * string)) (key v : string)
  : list (string * string) :=
  match d with
  | [] => [(key, v)]
  | (k, v') :: d' =>
      if String.eqb k key then (k, v) :: d' else (k, v') :: dict_set d' key v
  end.

Definition parse_property (d : list (string * string)) (prop : Element)
  : list (string * string) :=
  let name := ET.get_or prop "name" "" in
  let inline := match ET.text prop with
                | Some t => if Str.truthy t then t else ""
                | None => ""
                end in
  let v := ET.get_or prop "value" inline in
  if Str.truthy name then dict_set d name v else d.

(** [parse_properties] *)
Definition parse_properties (properties_elem : option Element)
  : list (string * string) :=
  match properties_elem with
  | None => []
  | Some pe => fold_left parse_property (ET.findall pe "property") []
  end.

(** The [image] attribute of [views/<view>/layers/layer], when every step
    is there. *)
Definition view_image (views_elem : Element) (view : string) : option string :=
  match ET.find views_elem view with
  | Some v =>
      match ET.find v "layers" with
      | Some layers =>
          match ET.find layers "layer" with
          | Some layer => ET.get layer "image"
          | None => None
          end
      | None => None
      end
  | None => None
  end.

Definition tag_texts (tags_elem : Element) : list string :=
  flat_map (fun tag => match ET.text tag with
                       | Some t => if Str.truthy t then [t] else []
                       | None => []
                       end)
           (ET.findall tags_elem "tag").

(** The body of the [try] of [parse_fzp_file], after [ET.parse]. *)
Definition parse_fzp_root (self : FritzingService)
  (file_path repository : string) (root : Element) : result FritzingComponent :=
  (title <- match ET.find root "title" with
            | Some title_elem => Ok (ET.text title_elem)
            | None => name <- OsPath.basename [file_path; ".fzp"] ;; Ok (Some name)
            end ;;
   let description := match ET.find root "description" with
                      | Some description_elem => ET.text description_elem
                      | None => Some ""
                      end in
   category <- extract_category file_path ;;
   let tags := match ET.find root "tags" with
               | Some tags_elem => tag_texts tags_elem
               | None => []
               end in
   component_id <- OsPath.basename [file_path; ".fzp"] ;;
   let svg := base_url self ++ "/svg/" ++ repository ++ "/" in
   let views_elem := ET.find root "views" in
   let image_of view := match views_elem with
                        | Some ve => view_image ve view
                        | None => None
                        end in
   let icon_url := match image_of "iconView" with
                   | Some image => svg ++ image
                   | None => svg ++ "icon/" ++ component_id ++ ".svg"
                   end in
   let breadboard_url := match image_of "breadboardView" with
                         | Some image => svg ++ image
                         | None => svg ++ "breadboard/" ++ component_id ++ ".svg"
                         end in
   Ok {| component_id := component_id;
         title := title;
         description := description;
         category := category;
         tags := tags;
         icon_url := icon_url;
         breadboard_url := breadboard_url;
         connectors := parse_connectors (ET.find root "connectors");
         properties := parse_properties (ET.find root "properties") |})%result.

(** [parse_fzp_file]: any exception inside gives [None]. *)
Definition parse_fzp_file (self : FritzingService) (file_path repository : string)
  : IO (option FritzingComponent) :=
  (parsed <- call (ParseFile file_path) ;;
   Ret (match rbind parsed (parse_fzp_root self file_path repository) with
        | Ok component => Some component
        | Raise _ => None
        end))%io.

(* ===================================================================== *)
(** ** Repository and graphic retrieval *)
(* ===================================================================== *)

(** [ensure_repository]: the service afterwards.  A failure of
    [os.makedirs] is caught and changes nothing. *)
Definition ensure_repository (self : FritzingService) : IO FritzingService :=
  (present <- call (PathExists (repo_path self)) ;;
   if present then Ret self
   else
     let existing_parts := "./backend/fritzing-parts" in
     found <- call (PathExists existing_parts) ;;
     if found then Ret (set_repo_path self existing_parts)
     else
       _ <- call (MakeDirs (repo_path self)) ;;
       Ret self)%io.

(** The paths of the [.fzp] files under one directory of a walk. *)
Definition fzp_in (entry : string * list string) : list string :=
  let '(root, filenames) := entry in
  map (fun filename => OsPath.join root [filename])
      (filter (Str.endswith ".fzp") filenames).

(** [find_fzp_files] *)
Definition find_fzp_files (directory : string) : IO (list string) :=
  (walked <- call (Walk directory) ;;
   Ret (flat_map fzp_in walked))%io.

(** The loop over [possible_filenames] of [get_component_svg]: the text of
    the first candidate that exists, [None] when reading it raises, and
    [otherwise] when no candidate exists. *)
Fixpoint read_first (svg_directory : string) (filenames : list string)
  (otherwise : IO (option string)) : IO (option string) :=
  match filenames with
  | [] => otherwise
  | filename :: rest =>
      let svg_path := OsPath.join svg_directory [filename] in
      (present <- call (PathExists svg_path) ;;
       if present
       then content <- call (ReadText svg_path) ;;
            Ret (match content with
                 | Ok s => Some s
                 | Raise _ => None
                 end)
       else read_first svg_directory rest otherwise)%io
  end.

(** The remote fallback of [get_component_svg]. *)
Definition fetch (url : string) : IO (option string) :=
  (response <- call (HttpGet url) ;;
   Ret (match response with
        | Ok (status, body) =>
            if (status =? 200)%Z
            then match body with
                 | Ok s => Some s
                 | Raise _ => None
                 end
            else None
        | Raise _ => None
        end))%io.

(** [get_component_svg]: the graphic text or [None], and the service
    afterwards. *)
Definition get_component_svg (self : FritzingService)
  (component_id svg_type : string) : IO (option string * FritzingService) :=
  (self1 <- ensure_repository self ;;
   let possible_filenames :=
     [ component_id ++ ".svg";
       component_id ++ "_" ++ svg_type ++ ".svg";
       component_id ++ "_breadboard.svg" ] in
   let svg_directory := OsPath.join (repo_path self1) ["svg"; "core"; svg_type] in
   let url := base_url self1 ++ "/svg/core/" ++ svg_type ++ "/"
              ++ component_id ++ ".svg" in
   present <- call (PathExists svg_directory) ;;
   content <- (if present
               then read_first svg_directory possible_filenames (fetch url)
               else fetch url) ;;
   Ret (content, self1))%io.

(* ===================================================================== *)
(** ** The graphic coordinate extractor *)
(* ===================================================================== *)

(** The test of line 307 on an element's [id]. *)
Definition is_pin_candidate (elem_id : string) : bool :=
  Str.contains "connector" (Str.lower elem_id)
  && (Str.contains "pin" (Str.lower elem_id)
      || Str.contains "pad" (Str.lower elem_id)).

(** [float(elem.attrib[a]), float(elem.attrib[b])] *)
Definition float_pair (elem : Element) (a b : string) : result (number * number) :=
  (x <- PyFloat.float (ET.get_or elem a "") ;;
   y <- PyFloat.float (ET.get_or elem b "") ;;
   Ok (PyFloat x, PyFloat y))%result.

(** Lines 308-325: the position of a candidate element. *)
Definition position_of (elem : Element) : result (number * number) :=
  if ET.has "cx" elem && ET.has "cy" elem then float_pair elem "cx" "cy"
  else if ET.has "x" elem && ET.has "y" elem then float_pair elem "x" "y"
  else if ET.has "x1" elem && ET.has "y1" elem then float_pair elem "x1" "y1"
  else
    match ET.get elem "d" with
    | Some d =>
        match Re.search Re.move_to d with
        | Some [g1; g2] =>
            (x <- PyFloat.float g1 ;;
             y <- PyFloat.float g2 ;;
             Ok (PyFloat x, PyFloat y))%result
        | _ => Ok (PyInt 0, PyInt 0)
        end
    | None => Ok (PyInt 0, PyInt 0)
    end.

(** Line 328: [elem_id.replace('pin', '').replace('pad', '')] *)
Definition base_id (elem_id : string) : string :=
  Str.replace "pad" "" (Str.replace "pin" "" elem_id).

(** One turn of the loop of [parse_connector_positions]. *)
Definition scan_element (connectors : list SvgConnector) (elem : Element)
  : result (list SvgConnector) :=
  let elem_id := ET.get_or elem "id" "" in
  if is_pin_candidate elem_id then
    (p <- position_of elem ;;
     Ok (connectors
         ++ [{| sc_id := base_id elem_id; sc_x := fst p; sc_y := snd p |}])%list)%result
  else Ok connectors.

Fixpoint scan_elements (connectors : list SvgConnector) (elems : list Element)
  : result (list SvgConnector) :=
  match elems with
  | [] => Ok connectors
  | elem :: rest =>
      (connectors' <- scan_element connectors elem ;;
       scan_elements connectors' rest)%result
  end.

Definition default_dimensions : float * float := (72.0%float, 93.6%float).

(** Lines 343-347: the third and fourth parts of a non-empty [viewBox]
    that splits into exactly four. *)
Definition viewbox_parts (root : Element) : option (string * string) :=
  match ET.get root "viewBox" with
  | Some viewbox =>
      if Str.truthy viewbox
      then match Str.split viewbox with
           | [_; _; p2; p3] => Some (p2, p3)
           | _ => None
           end
      else None
  | None => None
  end.

(** The [try] of [get_svg_dimensions] after parsing: [Ok (Some d)] when a
    [return] inside is reached, [Ok None] when control leaves the [try]
    without returning. *)
Definition dimensions_of (root : Element) : result (option (float * float)) :=
  match viewbox_parts root with
  | Some (p2, p3) =>
      (w <- PyFloat.float p2 ;;
       h <- PyFloat.float p3 ;;
       Ok (Some (w, h)))%result
  | None =>
      let width := ET.get_or root "width" "72" in
      let height := ET.get_or root "height" "93.6" in
      match Re.search Re.first_number width, Re.search Re.first_number height with
      | Some [gw], Some [gh] =>
          (w <- PyFloat.float gw ;;
           h <- PyFloat.float gh ;;
           let w := if Str.contains "in" width then PrimFloat.mul w 72 else w in
           let h := if Str.contains "in" height then PrimFloat.mul h 72 else h in
           Ok (Some (w, h)))%result
      | _, _ => Ok None
      end
  end.

(* ===================================================================== *)
(** ** The connector reconciler *)
(* ===================================================================== *)

(** The condition of lines 389-392. *)
Definition matches (connector : Connector) (sc : SvgConnector) : bool :=
  (Str.truthy (c_svgId connector) && String.eqb (sc_id sc) (c_svgId connector))
  || String.eqb (sc_id sc) (c_id connector)
  || Str.contains (sc_id sc) (c_id connector)
  || Str.contains (c_id connector) (sc_id sc).

(** Lines 387-394: the first entry of [svg_connectors] the condition
    accepts. *)
Definition find_svg_connector (svg_connectors : list SvgConnector)
  (connector : Connector) : option SvgConnector :=
  List.find (matches connector) svg_connectors.

(** Lines 396-402: the copy of a connector with its position and the
    dimensions of the graphic. *)
Definition update_connector (svg_connectors : list SvgConnector)
  (width height : float) (connector : Connector) : Connector :=
  let svg_connector := find_svg_connector svg_connectors connector in
  {| c_id := c_id connector;
     c_name := c_name connector;
     c_description := c_description connector;
     c_type := c_type connector;
     c_svgId := c_svgId connector;
     c_x := match svg_connector with Some sc => sc_x sc | None => c_x connector end;
     c_y := match svg_connector with Some sc => sc_y sc | None => c_y connector end;
     c_svgWidth := Some width;
     c_svgHeight := Some height |}.

(** Lines 384-403. *)
Definition updated_connectors (svg_connectors : list SvgConnector)
  (width height : float) (cs : list Connector) : list Connector :=
  map (update_connector svg_connectors width height) cs.

Definition with_connectors (component : FritzingComponent) (cs : list Connector)
  : FritzingComponent :=
  {| component_id := component_id component;
     title := title component;
     description := description component;
     category := category component;
     tags := tags component;
     icon_url := icon_url component;
     breadboard_url := breadboard_url component;
     connectors := cs;
     properties := properties component |}.

Section Service.

(** [ET.fromstring]: the tree of a document, or the parser's error. *)
Variable fromstring : string -> result Element.

(** [parse_connector_positions]: any exception inside gives the empty
    list. *)
Definition parse_connector_positions (component_id svg_content : string)
  : list SvgConnector :=
  try_except (root <- fromstring svg_content ;;
              scan_elements [] (ET.iter root))%result [].

(** [get_svg_dimensions]: an exception, or leaving the [try] without a
    result, gives the default dimensions. *)
Definition get_svg_dimensions (svg_content : string) : float * float :=
  match rbind (fromstring svg_content) dimensions_of with
  | Ok (Some d) => d
  | Ok None => default_dimensions
  | Raise _ => default_dimensions
  end.

(** Lines 380-416: the component rebuilt from a non-empty graphic text. *)
Definition reconcile (component : FritzingComponent) (svg_content : string)
  : FritzingComponent :=
  let svg_connectors := parse_connector_positions (component_id component) svg_content in
  let '(width, height) := get_svg_dimensions svg_content in
  with_connectors component
    (updated_connectors svg_connectors width height (connectors component)).

(** [update_component_with_connector_positions].  The callees catch every
    exception themselves, so the [except] branch is never entered and the
    final [return component] is reached only without a graphic text. *)
Definition update_component_with_connector_positions (self : FritzingService)
  (component : FritzingComponent) : IO (FritzingComponent * FritzingService) :=
  ('(svg_content, self1) <- get_component_svg self (component_id component) "breadboard" ;;
   match svg_content with
   | Some s =>
       if Str.truthy s then Ret (reconcile component s, self1)
       else Ret (component, self1)
   | None => Ret (component, self1)
   end)%io.

(** Lines 89-91: what the loop does with the outcome of the metadata
    parser. *)
Definition append_updated (component : option FritzingComponent)
  (st : list FritzingComponent * FritzingService)
  : IO (list FritzingComponent * FritzingService) :=
  match component with
  | Some c =>
      ('(updated_component, self1) <-
          update_component_with_connector_positions (snd st) c ;;
       Ret ((fst st ++ [updated_component])%list, self1))%io
  | None => Ret st
  end.

(** Lines 87-93: one document of a repository. *)
Definition load_file (repo fzp_file : string)
  (st : list FritzingComponent * FritzingService)
  : IO (list FritzingComponent * FritzingService) :=
  (component <- parse_fzp_file (snd st) fzp_file repo ;;
   append_updated component st)%io.

(** Lines 80-95: one repository. *)
Definition load_repository (repo : string)
  (st : list FritzingComponent * FritzingService)
  : IO (list FritzingComponent * FritzingService) :=
  let repo_path := OsPath.join (repo_path (snd st)) [repo] in
  (present <- call (PathExists repo_path) ;;
   if present
   then fzp_files <- find_fzp_files repo_path ;;
        for_each (firstn 50 fzp_files) (load_file repo) st
   else Ret st)%io.

(** [load_components]: the catalog returned and the service afterwards. *)
Definition load_components (self : FritzingService)
  : IO (list FritzingComponent * FritzingService) :=
  if loaded self && negb (Nat.eqb (List.length (components_cache self)) 0)
  then Ret (components_cache self, self)
  else
    (self1 <- ensure_repository self ;;
     '(components, self2) <-
        for_each ["core"; "contrib"; "user"] load_repository ([], self1) ;;
     Ret (components, set_cache self2 components))%io.

End Service.

(* ===================================================================== *)
(** ** Sample documents and worlds *)
(* ===================================================================== *)

Module Sample.

Fixpoint assoc {A : Type} (key : string) (l : list (string * A)) : option A :=
  match l with
  | [] => None
  | (k, v) :: l' => if String.eqb k key then Some v else assoc key l'
  end.

(** A description document with two pins. *)
Definition led_root : Element :=
  Elem "module" [("moduleId", "led")] None
    [ Elem "title" [] (Some "Red LED") [];
      Elem "connectors" [] None
        [ Elem "connector" [("id", "connector0"); ("name", "anode"); ("type", "male")] None
            [ Elem "description" [] (Some "anode") [];
              Elem "views" [] None
                [ Elem "breadboardView" [] None
                    [ Elem "p" [("layer", "breadboard"); ("svgId", "connector0pin")] None [] ] ] ];
          Elem "connector" [("id", "connector1"); ("name", "cathode"); ("type", "male")] None
            [ Elem "description" [] (Some "cathode") [];
              Elem "views" [] None
                [ Elem "breadboardView" [] None
                    [ Elem "p" [("layer", "breadboard"); ("svgId", "connector1pin")] None [] ] ] ] ] ].

(** The record of that document, as the metadata parser is meant to build
    it. *)
Definition led : FritzingComponent :=
  {| component_id := "led";
     title := Some "Red LED";
     description := Some "";
     category := "Semiconductors";
     tags := [];
     icon_url := base_url init ++ "/svg/core/icon/led.svg";
     breadboard_url := base_url init ++ "/svg/core/breadboard/led.svg";
     connectors := parse_connectors (ET.find led_root "connectors");
     properties := [] |}.

(** Graphic documents, each with the tree [ElementTree] builds from it. *)
Definition viewbox_svg : string := "<svg viewBox='0 0 36 79.2'/>".
Definition viewbox_root : Element :=
  Elem "svg" [("viewBox", "0 0 36 79.2")] None [].

Definition inches_svg : string := "<svg width='1in' height='2in'/>".
Definition inches_root : Element :=
  Elem "svg" [("width", "1in"); ("height", "2in")] None [].

Definition bare_svg : string := "<svg/>".
Definition bare_root : Element := Elem "svg" [] None [].

Definition odd_viewbox_svg : string :=
  "<svg viewBox='0 0 a b' width='10' height='20'/>".
Definition odd_viewbox_root : Element :=
  Elem "svg" [("viewBox", "0 0 a b"); ("width", "10"); ("height", "20")] None [].

Definition twin_svg : string :=
  "<svg viewBox='0 0 36 79.2'><circle id='connector0pin' cx='1' cy='2'/><rect id='connector0pad' x='3' y='4'/></svg>".
Definition twin_circle : Element :=
  Elem "circle" [("id", "connector0pin"); ("cx", "1"); ("cy", "2")] None [].
Definition twin_rect : Element :=
  Elem "rect" [("id", "connector0pad"); ("x", "3"); ("y", "4")] None [].
Definition twin_root : Element :=
  Elem "svg" [("viewBox", "0 0 36 79.2")] None [twin_circle; twin_rect].

Definition path_elem : Element :=
  Elem "path" [("id", "connector1pin"); ("d", "M 12.5,7 L 20,7")] None [].
Definition line_elem : Element :=
  Elem "line" [("id", "connector2pin"); ("x1", "4"); ("y1", "5"); ("x2", "6"); ("y2", "5")] None [].
Definition group_elem : Element :=
  Elem "g" [("id", "connector3pin")] None [].


(** A parser that knows the documents above; any other text is
    malformed. *)
Definition fromstring (s : string) : result Element :=
  match assoc s [ (viewbox_svg, viewbox_root); (inches_svg, inches_root);
                  (bare_svg, bare_root); (odd_viewbox_svg, odd_viewbox_root);
                  (twin_svg, twin_root) ] with
  | Some root => Ok root
  | None => Raise ParseError
  end.

(** A world: the paths that exist, what a walk of a directory yields, the
    description documents that parse, the text files, and the remote
    graphics. *)
Record Disk : Type := mkDisk {
  paths : list string;
  walks : list (string * list (string * list string));
  parsed : list (string * Element);
  texts : list (string * string);
  remote : list (string * string)
}.

Definition answer : handler Disk :=
  fun X e =>
    match e in Event X return Disk -> X * Disk with
    | PathExists p => fun d => (existsb (String.eqb p) (paths d), d)
    | MakeDirs p => fun d =>
        (Ok tt, mkDisk (p :: paths d) (walks d) (parsed d) (texts d) (remote d))
    | Walk dir => fun d =>
        (match assoc dir (walks d) with Some l => l | None => [] end, d)
    | ParseFile p => fun d =>
        (match assoc p (parsed d) with Some r => Ok r | None => Raise ParseError end, d)
    | ReadText p => fun d =>
        (match assoc p (texts d) with Some s => Ok s | None => Raise OSError end, d)
    | HttpGet url => fun d =>
        (match assoc url (remote d) with
         | Some s => Ok (200%Z, Ok s)
         | None => Ok (404%Z, Ok "404: Not Found")
         end, d)
    end.

(** The checkout exists, with no graphic for any component, locally or
    remotely. *)
Definition no_graphics : Disk :=
  mkDisk ["./backend/fritzing-parts"] [] [] [] [].

(** The checkout holds [svg/core/breadboard/led.svg] with the given
    text. *)
Definition with_graphic (content : string) : Disk :=
  mkDisk [ "./backend/fritzing-parts";
           "./backend/fritzing-parts/svg/core/breadboard";
           "./backend/fritzing-parts/svg/core/breadboard/led.svg" ]
         [] []
         [ ("./backend/fritzing-parts/svg/core/breadboard/led.svg", content) ]
         [].

(** The sub-collection [core] holds two description documents: one that
    does not parse and [led.fzp]. *)
Definition two_documents : Disk :=
  mkDisk [ "./backend/fritzing-parts"; "./backend/fritzing-parts/core" ]
         [ ("./backend/fritzing-parts/core",
            [ ("./backend/fritzing-parts/core", ["broken.fzp"; "led.fzp"]) ]) ]
         [ ("./backend/fritzing-parts/core/led.fzp", led_root) ]
         [] [].

(** A service that already holds a catalog of one record. *)
Definition loaded_service : FritzingService := set_cache init [led].

(** The pin of the specification's matching example, and two coordinate
    lists for it. *)
Definition pin3 : Connector :=
  {| c_id := "pin3"; c_name := "3"; c_description := Some ""; c_type := "male";
     c_svgId := "connector3pin"; c_x := PyInt 0; c_y := PyInt 0;
     c_svgWidth := None; c_svgHeight := None |}.

Definition at_pin3 : SvgConnector :=
  {| sc_id := "pin3"; sc_x := PyFloat 1; sc_y := PyFloat 1 |}.

Definition at_hint : SvgConnector :=
  {| sc_id := "connector3pin"; sc_x := PyFloat 2; sc_y := PyFloat 2 |}.

Definition elsewhere : SvgConnector :=
  {| sc_id := "connector7"; sc_x := PyFloat 9; sc_y := PyFloat 9 |}.

(** The first pin of [led]. *)
Definition anode : Connector :=
  {| c_id := "connector0"; c_name := "anode"; c_description := Some "anode";
     c_type := "male"; c_svgId := "connector0pin"; c_x := PyInt 0; c_y := PyInt 0;
     c_svgWidth := None; c_svgHeight := None |}.

End Sample.

(** Further sample documents and worlds. *)
Module Sample2.

(** A [properties] element in which [resistance] is declared twice and
    one property has no name. *)
Definition resistor_properties : Element :=
  Elem "properties" [] None
    [ Elem "property" [("name", "family")] (Some "resistor") [];
      Elem "property" [("name", "resistance"); ("value", "220")] (Some "ohm") [];
      Elem "property" [] (Some "nameless") [];
      Elem "property" [("name", "resistance")] (Some "470") [] ].

(** A graphic with a readable candidate and, after it, a candidate whose
    [x] is not a number. *)
Definition mixed_svg : string :=
  "<svg><circle id='connector0pin' cx='1' cy='2'/><rect id='connector1pin' x='3mm' y='4'/></svg>".
Definition mixed_circle : Element :=
  Elem "circle" [("id", "connector0pin"); ("cx", "1"); ("cy", "2")] None [].
Definition mixed_rect : Element :=
  Elem "rect" [("id", "connector1pin"); ("x", "3mm"); ("y", "4")] None [].
Definition mixed_root : Element :=
  Elem "svg" [] None [mixed_circle; mixed_rect].

(** The parser of [Sample], which also knows [mixed_svg]. *)
Definition parse (s : string) : result Element :=
  if String.eqb s mixed_svg then Ok mixed_root else Sample.fromstring s.

(** A world that answers as the disk [d] does and never changes. *)
Definition fixed (d : Sample.Disk) : handler unit :=
  fun X e _ => (fst (Sample.answer X e d), tt).

(** The checkout holds the path [svg/core/breadboard/led.svg], which
    cannot be read. *)
Definition unreadable_graphic : Sample.Disk :=
  Sample.mkDisk [ "./backend/fritzing-parts";
                  "./backend/fritzing-parts/svg/core/breadboard";
                  "./backend/fritzing-parts/svg/core/breadboard/led.svg" ]
                [] [] [] [].

(** The checkout has no graphics directory; the remote server has the
    breadboard graphic of [led]. *)
Definition remote_graphic : Sample.Disk :=
  Sample.mkDisk [ "./backend/fritzing-parts" ] [] [] []
    [ ("https://raw.githubusercontent.com/fritzing/fritzing-parts/develop/svg/core/breadboard/led.svg",
       Sample.twin_svg) ].

(** A pin declared without an id. *)
Definition nameless_pin : Connector :=
  {| c_id := ""; c_name := "anode"; c_description := Some ""; c_type := "male";
     c_svgId := ""; c_x := PyInt 0; c_y := PyInt 0;
     c_svgWidth := None; c_svgHeight := None |}.

(** A sub-collection with sixty description documents in one directory,
    and a file of another kind. *)
Definition sixty_names : list string :=
  map (fun n => "part" ++ String (ascii_of_nat (65 + n)) ".fzp") (seq 0 60).

Definition crowded : Sample.Disk :=
  Sample.mkDisk [ "./backend/fritzing-parts"; "./backend/fritzing-parts/core" ]
    [ ("./backend/fritzing-parts/core",
       [ ("./backend/fritzing-parts/core", "README.md" :: sixty_names) ]) ]
    [] [] [].

End Sample2.

(** Sample paths for the move-to rule. *)
Module Sample3.

(** A path whose [d] starts with [M 12.5,7] and goes on with [-3,2]. *)
Definition trailing_minus_svg : string :=
  "<svg><path id='connector1pin' d='M 12.5,7-3,2'/></svg>".
Definition trailing_minus_path : Element :=
  Elem "path" [("id", "connector1pin"); ("d", "M 12.5,7-3,2")] None [].
Definition trailing_minus_root : Element :=
  Elem "svg" [] None [trailing_minus_path].

(** A path whose [d] holds one number only. *)
Definition single_number_path : Element :=
  Elem "path" [("id", "connector2pin"); ("d", "M 10")] None [].

(** A path with a move-to pair separated by spaces alone. *)
Definition spaced_path : Element :=
  Elem "path" [("id", "connector3pin"); ("d", "L 1 2 M 3.5 4")] None [].

(** The parser of [Sample2], which also knows [trailing_minus_svg]. *)
Definition parse (s : string) : result Element :=
  if String.eqb s trailing_minus_svg then Ok trailing_minus_root
  else Sample2.parse s.

End Sample3.

(* ===================================================================== *)
(** ** Vocabulary of the properties *)
(* ===================================================================== *)

(** The specification's wording: [id], compared case-insensitively,
    contains [marker]. *)
Definition contains_ignoring_case (marker id : string) : Prop :=
  exists before occurrence after,
    id = before ++ occurrence ++ after /\
    Str.lower occurrence = Str.lower marker.

(** The part of a pin the description document declares. *)
Definition declared (c : Connector)
  : string * string * option string * string * string :=
  (c_id c, c_name c, c_description c, c_type c, c_svgId c).

(** The element has none of the attribute pairs cx/cy, x/y, x1/y1. *)
Definition no_point_attributes (elem : Element) : Prop :=
  ET.has "cx" elem && ET.has "cy" elem = false
  /\ ET.has "x" elem && ET.has "y" elem = false
  /\ ET.has "x1" elem && ET.has "y1" elem = false.

(** The first numeric substring of an attribute value, read as a number. *)
Definition first_number_of (value : string) : option float :=
  match Re.search Re.first_number value with
  | Some [g] =>
      match PyFloat.float g with
      | Ok f => Some f
      | Raise _ => None
      end
  | _ => None
  end.

(** Inches to pixels, for an attribute value that contains [in]. *)
Definition to_pixels (value : string) (v : float) : float :=
  if Str.contains "in" value then PrimFloat.mul v 72 else v.

(** The root has no [viewBox], or one that does not split into four
    parts. *)
Definition no_viewbox_of_four (root : Element) : Prop :=
  ET.get root "viewBox" = None
  \/ exists viewbox,
       ET.get root "viewBox" = Some viewbox
       /\ List.length (Str.split viewbox) <> 4%nat.

(** A pin as the metadata parser leaves it: at (0, 0), without
    dimensions. *)
Definition unplaced (c : Connector) : Prop :=
  c_x c = PyInt 0 /\ c_y c = PyInt 0
  /\ c_svgWidth c = None /\ c_svgHeight c = None.


(** The [name] of a property element, [''] when it has none. *)
Definition property_name (prop : Element) : string := ET.get_or prop "name" "".

(** The value [parse_properties] stores for a property element: its
    [value] attribute, else its text, else ['']. *)
Definition property_value (prop : Element) : string :=
  ET.get_or prop "value"
    (match ET.text prop with
     | Some t => if Str.truthy t then t else ""
     | None => ""
     end).

(** Kinds of calls, for statements about traces. *)
Definition is_parse_call (c : io_call) : bool :=
  match c with Called (ParseFile _) => true | _ => false end.

Definition is_fetch_call (c : io_call) : bool :=
  match c with Called (HttpGet _) => true | _ => false end.

Definition is_read_call (c : io_call) : bool :=
  match c with Called (ReadText _) => true | _ => false end.

(** Everything of a component but its pins. *)
Definition outside_connectors (c : FritzingComponent)
  : string * option string * option string * string * list string
    * string * string * list (string * string) :=
  (component_id c, title c, description c, category c, tags c,
   icon_url c, breadboard_url c, properties c).

(** Everything of a service but the path of its repository. *)
Definition outside_repo_path (s : FritzingService)
  : string * list FritzingComponent * bool :=
  (base_url s, components_cache s, loaded s).

(** The identifier of a graphic element, [''] when it has none. *)
Definition elem_id (elem : Element) : string := ET.get_or elem "id" "".

(** The three local candidates of [get_component_svg]. *)
Definition possible_filenames (component_id svg_type : string) : list string :=
  [ component_id ++ ".svg";
    component_id ++ "_" ++ svg_type ++ ".svg";
    component_id ++ "_breadboard.svg" ].

(** The remote address of [get_component_svg]. *)
Definition remote_url (self : FritzingService) (component_id svg_type : string)
  : string :=
  base_url self ++ "/svg/core/" ++ svg_type ++ "/" ++ component_id ++ ".svg".

(** The local directory of [get_component_svg]. *)
Definition svg_directory (self : FritzingService) (svg_type : string) : string :=
  OsPath.join (repo_path self) ["svg"; "core"; svg_type].

(** The world gives the answer [x] to the call [e] in every state. *)
Definition answers {W X : Type} (h : handler W) (e : Event X) (x : X) : Prop :=
  forall w, fst (h X e w) = x.

(** The paths a trace asks [ET.parse] to read. *)
Definition parsed_paths (t : list io_call) : list string :=
  flat_map (fun c => match c with
                     | Called (ParseFile p) => [p]
                     | _ => []
                     end) t.

(** The character [c] occurs in [s]. *)
Fixpoint has_char (c : ascii) (s : string) : bool :=
  match s with
  | EmptyString => false
  | String x t => Ascii.eqb c x || has_char c t
  end.

(** The text after its leading whitespace. *)
Definition after_spaces (s : string) : string :=
  Str.drop (Str.run_length Str.is_space s) s.

(** What follows a run of [[0-9.-]] up to the next run: whitespace, at
    most one comma, whitespace. *)
Definition after_separator (s : string) : string :=
  match after_spaces s with
  | String c t => if Ascii.eqb c "," then after_spaces t else String c t
  | EmptyString => EmptyString
  end.

(** The two texts read at a run of characters from [[0-9.-]].  When a
    second run follows the separator, they are the two runs.  When none
    does and the first run has two characters or more, they are the run
    without its last character, and that last character. *)
Definition pair_at (s : string) : option (string * string) :=
  let n := Str.run_length Re.digit_dot_minus s in
  let rest := after_separator (Str.drop n s) in
  let m := Str.run_length Re.digit_dot_minus rest in
  match n, m with
  | O, _ => None
  | S _, S _ => Some (Str.take n s, Str.take m rest)
  | S (S k), O => Some (Str.take (S k) s, Str.take 1 (Str.drop (S k) s))
  | S O, O => None
  end.

(** The two texts read after an [M]: optional whitespace, then the pair
    at what follows. *)
Definition pair_after_M (t : string) : option (string * string) :=
  pair_at (after_spaces t).

(** The pair of the first [M] of [d] that has one. *)
Fixpoint move_to_pair (d : string) : option (string * string) :=
  match d with
  | EmptyString => None
  | String c t =>
      match (if Ascii.eqb c "M" then pair_after_M t else None) with
      | Some p => Some p
      | None => move_to_pair t
      end
  end.

(** The groups of a match, from a pair. *)
Definition groups_of (p : option (string * string)) : option (list string) :=
  match p with
  | Some (g1, g2) => Some [g1; g2]
  | None => None
  end.

(** The search a repetition makes: the longest run first, then one
    character less at a time. *)
Fixpoint give_back (f : nat -> option (list string)) (k : nat)
  : option (list string) :=
  match f k, k with
  | Some g, _ => Some g
  | None, S k' => give_back f k'
  | None, O => None
  end.

(** The tails of the move-to pattern, from its last element. *)
Definition p7 : Re.pattern := [Re.Many Re.digit_dot_minus 1 true].
Definition p6 : Re.pattern := Re.Many Str.is_space 0 false :: p7.
Definition p5 : Re.pattern := Re.Opt "," :: p6.
Definition p4 : Re.pattern := Re.Many Str.is_space 0 false :: p5.
Definition p3 : Re.pattern := Re.Many Re.digit_dot_minus 1 true :: p4.
Definition p2 : Re.pattern := Re.Many Str.is_space 0 false :: p3.


(* ===================================================================== *)
(** ** Facts about strings *)
(* ===================================================================== *)

Lemma startswith_spec (p s : string) :
  Str.startswith p s = true <-> exists t, s = p ++ t.
Proof.
  revert s; induction p as [|a p IH]; intros s; simpl.
  - split; [intros _; exists s; reflexivity | reflexivity].
  - destruct s as [|b s]; simpl.
    + split; [discriminate | intros [t H]; discriminate].
    + rewrite andb_true_iff, IH. split.
      * intros [Hab [t ->]]. apply Ascii.eqb_eq in Hab; subst b.
        exists t; reflexivity.
      * intros [t H]. injection H as -> ->. split.
        -- apply Ascii.eqb_refl.
        -- exists t; reflexivity.
Qed.

Lemma contains_spec (needle hay : string) :
  Str.contains needle hay = true <->
  exists before after, hay = before ++ needle ++ after.
Proof.
  induction hay as [|c hay IH]; simpl.
  - rewrite orb_false_r, startswith_spec. split.
    + intros [t H]. exists "", t. exact H.
    + intros [before [after H]]. destruct before; simpl in H.
      * exists after; exact H.
      * discriminate.
  - rewrite orb_true_iff, startswith_spec, IH. split.
    + intros [[t H] | [before [after H]]].
      * exists "", t. exact H.
      * exists (String c before), after. simpl. now rewrite H.
    + intros [before [after H]]. destruct before as [|b before]; simpl in H.
      * left. exists after; exact H.
      * right. injection H as _ H. exists before, after. exact H.
Qed.

Lemma contains_empty (hay : string) : Str.contains "" hay = true.
Proof. destruct hay; reflexivity. Qed.

Lemma lower_app (a b : string) :
  Str.lower (a ++ b) = Str.lower a ++ Str.lower b.
Proof. induction a as [|c a IH]; simpl; [reflexivity | now rewrite IH]. Qed.

Lemma lower_split (s a b : string) :
  Str.lower s = a ++ b ->
  exists a' b', s = a' ++ b' /\ Str.lower a' = a /\ Str.lower b' = b.
Proof.
  revert s; induction a as [|c a IH]; intros s H; simpl in H.
  - exists "", s. auto.
  - destruct s as [|d s]; simpl in H; [discriminate|].
    injection H as Hc H. destruct (IH _ H) as [a' [b' [-> [Ha Hb]]]].
    exists (String d a'), b'. simpl. rewrite Ha, Hc. auto.
Qed.

Lemma contains_lower (marker id : string) :
  Str.contains (Str.lower marker) (Str.lower id) = true <->
  contains_ignoring_case marker id.
Proof.
  rewrite contains_spec. split.
  - intros [before [after H]].
    destruct (lower_split _ _ _ H) as [b' [rest [-> [_ Hrest]]]].
    destruct (lower_split _ _ _ Hrest) as [o' [a' [-> [Ho _]]]].
    exists b', o', a'. auto.
  - intros [before [occurrence [after [-> H]]]].
    exists (Str.lower before), (Str.lower after).
    now rewrite !lower_app, H.
Qed.

(* ===================================================================== *)
(** ** Facts about programs *)
(* ===================================================================== *)

Lemma run_bind {W A B : Type} (h : handler W) (p : IO A) (k : A -> IO B) (w : W) :
  run h (bind p k) w =
  let '(a, w1, t1) := run h p w in
  let '(b, w2, t2) := run h (k a) w1 in
  (b, w2, (t1 ++ t2)%list).
Proof.
  revert w; induction p as [a | X e k' IH]; intros w; simpl.
  - destruct (run h (k a) w) as [[b w2] t2]. reflexivity.
  - destruct (h X e w) as [x w1]. rewrite IH.
    destruct (run h (k' x) w1) as [[a w2] t1].
    destruct (run h (k a) w2) as [[b w3] t2]. reflexivity.
Qed.

(** A loop whose body keeps a property of its state keeps it. *)
Lemma for_each_invariant {W A S : Type} (h : handler W) (P : S -> Prop)
  (body : A -> S -> IO S) :
  (forall x s w, P s -> P (value (run h (body x s) w))) ->
  forall l s w, P s -> P (value (run h (for_each l body s) w)).
Proof.
  intros Hbody l; induction l as [|x l IH]; intros s w Hs; simpl.
  - exact Hs.
  - rewrite run_bind.
    specialize (Hbody x s w Hs).
    destruct (run h (body x s) w) as [[s1 w1] t1].
    specialize (IH s1 w1 Hbody).
    destruct (run h (for_each l body s1) w1) as [[s2 w2] t2].
    exact IH.
Qed.

(* ===================================================================== *)
(** ** Facts about the reconciler *)
(* ===================================================================== *)

Lemma declared_update_connector svg_connectors width height connector :
  declared (update_connector svg_connectors width height connector)
  = declared connector.
Proof. reflexivity. Qed.

Lemma declared_updated_connectors svg_connectors width height cs :
  map declared (updated_connectors svg_connectors width height cs)
  = map declared cs.
Proof.
  unfold updated_connectors. rewrite map_map.
  apply map_ext. intros c. apply declared_update_connector.
Qed.

(** A coordinate named by the pin's graphic hint is accepted by the
    condition, also when the hint is empty. *)
Lemma matches_hint connector sc :
  sc_id sc = c_svgId connector -> matches connector sc = true.
Proof.
  intros H. unfold matches. rewrite H, String.eqb_refl.
  destruct (c_svgId connector) as [|c s].
  - apply orb_true_iff; left. apply orb_true_iff; right.
    apply contains_empty.
  - reflexivity.
Qed.

(** The loop of lines 388-394 stops at the first accepted coordinate. *)
Lemma find_first_match connector before sc after :
  (forall o, In o before -> matches connector o = false) ->
  matches connector sc = true ->
  find_svg_connector (before ++ sc :: after) connector = Some sc.
Proof.
  intros Hbefore Hsc. unfold find_svg_connector.
  induction before as [|o before IH]; simpl.
  - now rewrite Hsc.
  - rewrite (Hbefore o (or_introl eq_refl)).
    apply IH. intros o' Ho'. apply Hbefore. now right.
Qed.

Lemma update_connector_first_match connector before sc after width height :
  (forall o, In o before -> matches connector o = false) ->
  matches connector sc = true ->
  c_x (update_connector (before ++ sc :: after) width height connector) = sc_x sc
  /\ c_y (update_connector (before ++ sc :: after) width height connector) = sc_y sc.
Proof.
  intros Hbefore Hsc. unfold update_connector; simpl.
  rewrite (find_first_match _ _ _ _ Hbefore Hsc). split; reflexivity.
Qed.

(** Two coordinates differ when their float values do. *)
Lemma PyFloat_neq (f g : float) :
  PrimFloat.eqb f f = true -> PrimFloat.eqb g f = false -> PyFloat f <> PyFloat g.
Proof.
  intros Hf Hg E. injection E as E. subst g.
  rewrite Hf in Hg. discriminate.
Qed.

Lemma update_component_run fromstring {W : Type} (h : handler W) (w : W)
  (self : FritzingService) (component : FritzingComponent) :
  let g := run h (get_component_svg self (component_id component) "breadboard") w in
  run h (update_component_with_connector_positions fromstring self component) w
  = (match fst (value g) with
     | Some s => if Str.truthy s then reconcile fromstring component s else component
     | None => component
     end, snd (value g), world g, trace g).
Proof.
  unfold update_component_with_connector_positions. cbv zeta. rewrite run_bind.
  destruct (run h (get_component_svg self (component_id component) "breadboard") w)
    as [[[content self1] w1] t1].
  unfold value, world, trace; simpl.
  destruct content as [s|]; [destruct (Str.truthy s)|]; simpl;
    rewrite app_nil_r; reflexivity.
Qed.

Lemma connectors_reconcile fromstring component svg_content :
  exists svg_connectors width height,
    connectors (reconcile fromstring component svg_content)
    = updated_connectors svg_connectors width height (connectors component).
Proof.
  unfold reconcile.
  destruct (get_svg_dimensions fromstring svg_content) as [width height].
  exists (parse_connector_positions fromstring (component_id component) svg_content),
    width, height.
  reflexivity.
Qed.

(* ===================================================================== *)
(** ** Properties of the reconciler *)
(* ===================================================================== *)

(** C1, as stated, fails: for the pin with id [pin3] and graphic hint
    [connector3pin], and the coordinate list that holds a coordinate named
    [pin3] before the one named [connector3pin], the reconciled pin takes
    the position of the former, which only the exact-id rule accepts, and
    not that of the coordinate named by the hint. *)
Lemma hint_match_not_preferred :
  In Sample.at_hint [Sample.at_pin3; Sample.at_hint]
  /\ sc_id Sample.at_hint = c_svgId Sample.pin3
  /\ c_x (update_connector [Sample.at_pin3; Sample.at_hint] 72 36 Sample.pin3)
     = sc_x Sample.at_pin3
  /\ c_x (update_connector [Sample.at_pin3; Sample.at_hint] 72 36 Sample.pin3)
     <> sc_x Sample.at_hint.
Proof.
  split; [right; left; reflexivity|].
  split; [reflexivity|].
  split; [reflexivity|].
  apply PyFloat_neq; reflexivity.
Qed.

(** C1, amended: the four rules are one condition, tried on the
    coordinates in list order, and the first coordinate it accepts wins.
    When the list holds a coordinate whose identifier equals the pin's
    graphic hint, and no coordinate before it in the list is accepted by
    any of the four rules, the reconciled pin's (x, y) is that
    coordinate's (x, y), whatever coordinates follow it. *)
Theorem hint_match_wins_unless_preceded
  (before after : list SvgConnector) (sc : SvgConnector)
  (width height : float) (connector : Connector) :
  sc_id sc = c_svgId connector ->
  (forall o, In o before -> matches connector o = false) ->
  c_x (update_connector (before ++ sc :: after) width height connector) = sc_x sc
  /\ c_y (update_connector (before ++ sc :: after) width height connector) = sc_y sc.
Proof.
  intros Hid Hbefore.
  apply update_connector_first_match; [exact Hbefore|].
  apply matches_hint; exact Hid.
Qed.

Lemma hint_match_wins_unless_preceded_witness :
  c_x (update_connector [Sample.elsewhere; Sample.at_hint; Sample.at_pin3]
         72 36 Sample.pin3) = PyFloat 2
  /\ c_y (update_connector [Sample.elsewhere; Sample.at_hint; Sample.at_pin3]
            72 36 Sample.pin3) = PyFloat 2.
Proof.
  apply (hint_match_wins_unless_preceded
           [Sample.elsewhere] [Sample.at_pin3] Sample.at_hint 72 36 Sample.pin3).
  - reflexivity.
  - intros o [<- | []]. reflexivity.
Defined.

(** C6: reconciliation keeps the number of pins and their order.  For
    every coordinate list and dimensions the rebuilt record has the pins
    of the component, each with its declared id, name, description, type
    and graphic hint, in the order of declaration; and so has the record
    [update_component_with_connector_positions] returns, in every world. *)
Theorem pin_count_and_order_preserved
  (fromstring : string -> result Element) (W : Type) (h : handler W) (w : W)
  (self : FritzingService) (component : FritzingComponent)
  (svg_connectors : list SvgConnector) (width height : float) :
  let rebuilt :=
    with_connectors component
      (updated_connectors svg_connectors width height (connectors component)) in
  let updated :=
    fst (value (run h (update_component_with_connector_positions
                         fromstring self component) w)) in
  (List.length (connectors rebuilt) = List.length (connectors component)
   /\ map declared (connectors rebuilt) = map declared (connectors component))
  /\ (List.length (connectors updated) = List.length (connectors component)
      /\ map declared (connectors updated) = map declared (connectors component)).
Proof.
  cbv zeta. split.
  - simpl. split.
    + unfold updated_connectors. apply length_map.
    + apply declared_updated_connectors.
  - rewrite update_component_run. cbv zeta.
    destruct (run h (get_component_svg self (component_id component)
                       "breadboard") w) as [[[content self1] w1] t1].
    unfold value; cbn [fst snd].
    destruct content as [s|].
    + destruct (Str.truthy s).
      * destruct (connectors_reconcile fromstring component s)
          as [scs [wd [ht ->]]].
        split.
        -- unfold updated_connectors. apply length_map.
        -- apply declared_updated_connectors.
      * split; reflexivity.
    + split; reflexivity.
Qed.

(* ===================================================================== *)
(** ** Properties of the graphic coordinate extractor *)
(* ===================================================================== *)

Lemma scan_element_acc connectors elem :
  scan_element connectors elem
  = match scan_element [] elem with
    | Ok found => Ok (connectors ++ found)%list
    | Raise e => Raise e
    end.
Proof.
  unfold scan_element.
  destruct (is_pin_candidate (ET.get_or elem "id" "")).
  - destruct (position_of elem); reflexivity.
  - now rewrite app_nil_r.
Qed.

Lemma scan_elements_acc elems : forall connectors,
  scan_elements connectors elems
  = match scan_elements [] elems with
    | Ok found => Ok (connectors ++ found)%list
    | Raise e => Raise e
    end.
Proof.
  induction elems as [|elem rest IH]; intros connectors; simpl.
  - now rewrite app_nil_r.
  - rewrite (scan_element_acc connectors elem).
    destruct (scan_element [] elem) as [found|e]; simpl; [|reflexivity].
    rewrite (IH (connectors ++ found)%list), (IH found).
    destruct (scan_elements [] rest); [|reflexivity].
    now rewrite app_assoc.
Qed.

Lemma scan_elements_app l1 l2 : forall connectors,
  scan_elements connectors (l1 ++ l2)
  = rbind (scan_elements connectors l1) (fun found => scan_elements found l2).
Proof.
  induction l1 as [|elem rest IH]; intros connectors; simpl.
  - reflexivity.
  - destruct (scan_element connectors elem); simpl; [apply IH | reflexivity].
Qed.

Lemma scan_candidate connectors elem p :
  is_pin_candidate (ET.get_or elem "id" "") = true ->
  position_of elem = Ok p ->
  scan_element connectors elem
  = Ok (connectors ++ [{| sc_id := base_id (ET.get_or elem "id" "");
                          sc_x := fst p; sc_y := snd p |}])%list.
Proof. intros Hc Hp. unfold scan_element. now rewrite Hc, Hp. Qed.

Lemma scan_other connectors elem :
  is_pin_candidate (ET.get_or elem "id" "") = false ->
  scan_element connectors elem = Ok connectors.
Proof. intros Hc. unfold scan_element. now rewrite Hc. Qed.

(** C7, as stated, fails: the graphic [twin_svg] has the candidates
    [connector0pin] at (1, 2) and, after it, [connector0pad] at (3, 4); both
    identifiers normalise to [connector0] and both coordinates are
    extracted, but the pin [connector0] is given (1, 2), the first of the
    two in traversal order, and not (3, 4), the last. *)
Lemma last_duplicate_not_used :
  parse_connector_positions Sample.fromstring "led" Sample.twin_svg
  = [ {| sc_id := "connector0"; sc_x := PyFloat 1; sc_y := PyFloat 2 |};
      {| sc_id := "connector0"; sc_x := PyFloat 3; sc_y := PyFloat 4 |} ]
  /\ c_x (update_connector
            (parse_connector_positions Sample.fromstring "led" Sample.twin_svg)
            36 72 Sample.anode) = PyFloat 1
  /\ c_x (update_connector
            (parse_connector_positions Sample.fromstring "led" Sample.twin_svg)
            36 72 Sample.anode) <> PyFloat 3.
Proof.
  split; [vm_compute; reflexivity|].
  split; [vm_compute; reflexivity|].
  vm_compute. apply PyFloat_neq; reflexivity.
Qed.

(** C7, amended: when the traversal of a graphic meets two candidates
    whose identifiers normalise to the same string, and every element of
    the traversal has a readable position, both coordinates are in the
    extracted list, in traversal order; and a pin that the first of the
    two matches, and that no coordinate extracted before it matches, is
    given the position of the FIRST of the two. *)
Theorem duplicate_identifiers_first_wins
  (fromstring : string -> result Element) (component_id svg_content : string)
  (root : Element) (pre mid post : list Element) (e1 e2 : Element)
  (spre smid spost : list SvgConnector) (p1 p2 : number * number) :
  fromstring svg_content = Ok root ->
  ET.iter root = (pre ++ e1 :: mid ++ e2 :: post)%list ->
  scan_elements [] pre = Ok spre ->
  scan_elements [] mid = Ok smid ->
  scan_elements [] post = Ok spost ->
  is_pin_candidate (ET.get_or e1 "id" "") = true ->
  is_pin_candidate (ET.get_or e2 "id" "") = true ->
  position_of e1 = Ok p1 ->
  position_of e2 = Ok p2 ->
  base_id (ET.get_or e1 "id" "") = base_id (ET.get_or e2 "id" "") ->
  let sc1 := {| sc_id := base_id (ET.get_or e1 "id" "");
                sc_x := fst p1; sc_y := snd p1 |} in
  let sc2 := {| sc_id := base_id (ET.get_or e1 "id" "");
                sc_x := fst p2; sc_y := snd p2 |} in
  parse_connector_positions fromstring component_id svg_content
  = (spre ++ sc1 :: smid ++ sc2 :: spost)%list
  /\ forall (connector : Connector) (width height : float),
       matches connector sc1 = true ->
       (forall o, In o spre -> matches connector o = false) ->
       c_x (update_connector
              (parse_connector_positions fromstring component_id svg_content)
              width height connector) = fst p1
       /\ c_y (update_connector
                 (parse_connector_positions fromstring component_id svg_content)
                 width height connector) = snd p1.
Proof.
  intros Hroot Hiter Hpre Hmid Hpost Hc1 Hc2 Hp1 Hp2 Hid sc1 sc2.
  assert (Hscan : parse_connector_positions fromstring component_id svg_content
                  = (spre ++ sc1 :: smid ++ sc2 :: spost)%list).
  { unfold parse_connector_positions. rewrite Hroot; simpl. rewrite Hiter.
    rewrite scan_elements_app, Hpre; simpl.
    rewrite (scan_candidate spre e1 p1 Hc1 Hp1).
    simpl. rewrite scan_elements_app.
    rewrite (scan_elements_acc mid), Hmid; simpl.
    rewrite (scan_candidate _ e2 p2 Hc2 Hp2).
    simpl. rewrite (scan_elements_acc post), Hpost; simpl.
    rewrite <- Hid. fold sc1. fold sc2.
    rewrite <- !app_assoc. reflexivity. }
  split; [exact Hscan|].
  intros connector width height Hm Hbefore. rewrite Hscan.
  apply (update_connector_first_match connector spre sc1 _ width height Hbefore Hm).
Qed.

Lemma duplicate_identifiers_first_wins_witness :
  parse_connector_positions Sample.fromstring "led" Sample.twin_svg
  = [ {| sc_id := "connector0"; sc_x := PyFloat 1; sc_y := PyFloat 2 |};
      {| sc_id := "connector0"; sc_x := PyFloat 3; sc_y := PyFloat 4 |} ]
  /\ forall (connector : Connector) (width height : float),
       matches connector
         {| sc_id := "connector0"; sc_x := PyFloat 1; sc_y := PyFloat 2 |} = true ->
       (forall o, In o [] -> matches connector o = false) ->
       c_x (update_connector
              (parse_connector_positions Sample.fromstring "led" Sample.twin_svg)
              width height connector) = PyFloat 1
       /\ c_y (update_connector
                 (parse_connector_positions Sample.fromstring "led" Sample.twin_svg)
                 width height connector) = PyFloat 2.
Proof.
  apply (duplicate_identifiers_first_wins Sample.fromstring "led" Sample.twin_svg
           Sample.twin_root [Sample.twin_root] [] [] Sample.twin_circle
           Sample.twin_rect [] [] [] (PyFloat 1, PyFloat 2) (PyFloat 3, PyFloat 4));
    reflexivity.
Defined.




Lemma match_many (cls : ascii -> bool) (least : nat) (capture : bool)
  (r : Re.pattern) (s : string) :
  Re.match_here (Re.Many cls least capture :: r) s
  = give_back
      (fun k => if (least <=? k)%nat
                then match Re.match_here r (Str.drop k s) with
                     | Some g => Some (if capture then Str.take k s :: g else g)
                     | None => None
                     end
                else None)
      (Str.run_length cls s).
Proof.
  cbn [Re.match_here]. generalize (Str.run_length cls s) as n.
  induction n as [|n IH]; cbn [give_back].
  - reflexivity.
  - rewrite <- IH. reflexivity.
Qed.

Lemma give_back_none (f : nat -> option (list string)) (k : nat) :
  (forall j, (j <= k)%nat -> f j = None) -> give_back f k = None.
Proof.
  induction k as [|k IH]; intros H; cbn [give_back].
  - now rewrite (H 0%nat (Nat.le_refl _)).
  - rewrite (H (S k) (Nat.le_refl _)). apply IH. intros j Hj. apply H. lia.
Qed.

Lemma give_back_top (f : nat -> option (list string)) (k : nat) :
  (f k = None -> forall j, (j < k)%nat -> f j = None) ->
  give_back f k = f k.
Proof.
  intros H. destruct (f k) as [g|] eqn:E.
  - destruct k; cbn [give_back]; now rewrite E.
  - apply give_back_none. intros j Hj.
    destruct (Nat.eq_dec j k) as [-> | Hne]; [exact E|].
    apply (H eq_refl). lia.
Qed.

Lemma space_not_number (c : ascii) :
  Str.is_space c = true -> Re.digit_dot_minus c = false.
Proof.
  destruct c as [[] [] [] [] [] [] [] []]; vm_compute; congruence.
Qed.

Lemma number_not_space (c : ascii) :
  Re.digit_dot_minus c = true -> Str.is_space c = false.
Proof.
  intros H. destruct (Str.is_space c) eqn:E; [|reflexivity].
  rewrite (space_not_number c E) in H. discriminate.
Qed.

Lemma drop_in_run (cls : ascii -> bool) (s : string) (j : nat) :
  (j < Str.run_length cls s)%nat ->
  exists c t, Str.drop j s = String c t /\ cls c = true
              /\ Str.run_length cls (Str.drop j s) = (Str.run_length cls s - j)%nat.
Proof.
  revert j; induction s as [|x s IH]; intros j Hj; simpl in Hj.
  - lia.
  - destruct (cls x) eqn:Hx; [|lia].
    destruct j as [|j]; simpl.
    + exists x, s. rewrite Hx. auto.
    + rewrite Hx. apply IH. lia.
Qed.

Lemma run_after_run (cls : ascii -> bool) (s : string) :
  Str.run_length cls (Str.drop (Str.run_length cls s) s) = 0%nat.
Proof.
  induction s as [|x s IH]; simpl.
  - reflexivity.
  - destruct (cls x) eqn:Hx; simpl; [exact IH | now rewrite Hx].
Qed.

Lemma drop_drop (a b : nat) (s : string) :
  Str.drop a (Str.drop b s) = Str.drop (b + a) s.
Proof.
  revert s; induction b as [|b IH]; intros s; simpl.
  - reflexivity.
  - destruct s as [|x s]; [destruct a; reflexivity | apply IH].
Qed.

Lemma after_spaces_in_run (s : string) (j : nat) :
  (j <= Str.run_length Str.is_space s)%nat ->
  after_spaces (Str.drop j s) = after_spaces s.
Proof.
  intros Hj. unfold after_spaces.
  destruct (Nat.eq_dec j (Str.run_length Str.is_space s)) as [-> | Hne].
  - now rewrite run_after_run.
  - destruct (drop_in_run Str.is_space s j) as [c [t [_ [_ ->]]]]; [lia|].
    rewrite drop_drop. f_equal. lia.
Qed.

Lemma after_spaces_no_space (c : ascii) (t : string) :
  Str.is_space c = false -> after_spaces (String c t) = String c t.
Proof. intros H. unfold after_spaces. simpl. now rewrite H. Qed.

Lemma after_spaces_idem (s : string) : after_spaces (after_spaces s) = after_spaces s.
Proof.
  unfold after_spaces. now rewrite run_after_run.
Qed.

Lemma match_p7 (s : string) :
  Re.match_here p7 s
  = match Str.run_length Re.digit_dot_minus s with
    | O => None
    | S m => Some [Str.take (S m) s]
    end.
Proof.
  unfold p7. rewrite match_many.
  destruct (Str.run_length Re.digit_dot_minus s) as [|m]; reflexivity.
Qed.

Lemma skip_spaces_first (r : Re.pattern) (s : string) :
  (forall c t, Str.is_space c = true -> Re.match_here r (String c t) = None) ->
  Re.match_here (Re.Many Str.is_space 0 false :: r) s
  = Re.match_here r (after_spaces s).
Proof.
  intros Hr. rewrite match_many. rewrite give_back_top.
  - cbn. unfold after_spaces.
    destruct (Re.match_here r (Str.drop (Str.run_length Str.is_space s) s));
      reflexivity.
  - intros _ j Hj. cbn.
    destruct (drop_in_run Str.is_space s j Hj) as [c [t [-> [Hc _]]]].
    now rewrite (Hr c t Hc).
Qed.

Lemma match_p6 (s : string) : Re.match_here p6 s = Re.match_here p7 (after_spaces s).
Proof.
  unfold p6. apply skip_spaces_first. intros c t Hc.
  rewrite match_p7. simpl. now rewrite (space_not_number c Hc).
Qed.

Lemma match_p5_no_space (c : ascii) (t : string) :
  Str.is_space c = false ->
  Re.match_here p5 (String c t) = Re.match_here p7 (after_separator (String c t)).
Proof.
  intros Hc. unfold p5. cbn [Re.match_here]. fold p6.
  unfold after_separator. rewrite (after_spaces_no_space c t Hc).
  rewrite (Ascii.eqb_sym c ",").
  destruct (Ascii.eqb "," c) eqn:E.
  - rewrite match_p6.
    destruct (Re.match_here p7 (after_spaces t)); [reflexivity|].
    rewrite match_p6, (after_spaces_no_space c t Hc), match_p7.
    apply Ascii.eqb_eq in E. subst c. reflexivity.
  - rewrite match_p6, (after_spaces_no_space c t Hc). reflexivity.
Qed.

Lemma match_p5_top (s : string) :
  Re.match_here p5 (after_spaces s) = Re.match_here p7 (after_separator s).
Proof.
  destruct (after_spaces s) as [|c t] eqn:E.
  - unfold after_separator. rewrite E. reflexivity.
  - assert (Hc : Str.is_space c = false).
    { pose proof (run_after_run Str.is_space s) as H.
      unfold after_spaces in E. rewrite E in H. simpl in H.
      destruct (Str.is_space c); [discriminate | reflexivity]. }
    rewrite (match_p5_no_space c t Hc).
    unfold after_separator. rewrite <- E, after_spaces_idem. reflexivity.
Qed.

Lemma match_p5_space (c : ascii) (t : string) :
  Str.is_space c = true ->
  Re.match_here p5 (String c t) = Re.match_here p7 (after_spaces (String c t)).
Proof.
  intros Hc. unfold p5. cbn [Re.match_here]. fold p6.
  assert (E : Ascii.eqb "," c = false).
  { apply Ascii.eqb_neq. intros <-. discriminate Hc. }
  rewrite E. apply match_p6.
Qed.

Lemma match_p7_separator (s : string) :
  Re.match_here p7 (after_separator s) = None ->
  Re.match_here p7 (after_spaces s) = None.
Proof.
  unfold after_separator. destruct (after_spaces s) as [|c t]; [auto|].
  destruct (Ascii.eqb c ",") eqn:E; [|auto].
  intros _. apply Ascii.eqb_eq in E. subst c. rewrite match_p7. reflexivity.
Qed.

Lemma match_p4 (s : string) :
  Re.match_here p4 s = Re.match_here p7 (after_separator s).
Proof.
  unfold p4. rewrite match_many, give_back_top.
  - cbv beta. cbn [Nat.leb]. fold (after_spaces s). rewrite match_p5_top.
    destruct (Re.match_here p7 (after_separator s)); reflexivity.
  - cbv beta. cbn [Nat.leb]. fold (after_spaces s). rewrite match_p5_top.
    intros H j Hj.
    destruct (drop_in_run Str.is_space s j Hj) as [c [t [E [Hc _]]]].
    rewrite E, (match_p5_space c t Hc), <- E.
    rewrite (after_spaces_in_run s j (Nat.lt_le_incl _ _ Hj)).
    rewrite match_p7_separator; [reflexivity|].
    destruct (Re.match_here p7 (after_separator s)); [discriminate | reflexivity].
Qed.

Lemma match_p3 (s : string) : Re.match_here p3 s = groups_of (pair_at s).
Proof.
  unfold p3. rewrite match_many. unfold pair_at. cbv zeta.
  destruct (Str.run_length Re.digit_dot_minus s) as [|[|k]] eqn:En.
  - reflexivity.
  - cbn [give_back Nat.leb]. rewrite !match_p4, !match_p7.
    destruct (Str.run_length Re.digit_dot_minus (after_separator (Str.drop 1 s)));
      reflexivity.
  - cbn [give_back Nat.leb]. rewrite match_p4, match_p7.
    destruct (Str.run_length Re.digit_dot_minus
                (after_separator (Str.drop (S (S k)) s))) as [|m].
    + destruct (drop_in_run Re.digit_dot_minus s (S k)) as [c [t [E [Hc Hrun]]]];
        [lia|].
      rewrite match_p4.
      assert (Hsep : after_separator (Str.drop (S k) s) = Str.drop (S k) s).
      { rewrite E. unfold after_separator.
        rewrite (after_spaces_no_space c t (number_not_space c Hc)).
        destruct (Ascii.eqb c ",") eqn:E'; [|reflexivity].
        apply Ascii.eqb_eq in E'. subst c. discriminate Hc. }
      rewrite Hsep, match_p7, Hrun, En.
      replace (S (S k) - S k)%nat with 1%nat by lia. reflexivity.
    + reflexivity.
Qed.

Lemma match_p2 (t : string) : Re.match_here p2 t = groups_of (pair_after_M t).
Proof.
  unfold p2, pair_after_M. rewrite skip_spaces_first.
  - apply match_p3.
  - intros c u Hc. fold p3. rewrite match_p3. unfold pair_at. simpl.
    now rewrite (space_not_number c Hc).
Qed.

(** The source's pattern finds what [move_to_pair] describes. *)
Lemma search_move_to (d : string) :
  Re.search Re.move_to d = groups_of (move_to_pair d).
Proof.
  induction d as [|c t IH].
  - reflexivity.
  - cbn [Re.search move_to_pair].
    change Re.move_to with (Re.Lit "M" :: p2) at 1.
    cbn [Re.match_here]. rewrite (Ascii.eqb_sym "M" c).
    destruct (Ascii.eqb c "M").
    + rewrite match_p2.
      destruct (pair_after_M t) as [[g1 g2]|]; [reflexivity | exact IH].
    + exact IH.
Qed.

Lemma move_to_example (rest : string) :
  (rest = "" \/ exists c t, rest = String c t /\ Re.digit_dot_minus c = false) ->
  Re.search Re.move_to ("M 12.5,7" ++ rest) = Some ["12.5"; "7"].
Proof.
  intros [-> | [c [t [-> H]]]].
  - reflexivity.
  - unfold Re.search, Re.move_to. simpl. rewrite H. simpl. reflexivity.
Qed.

Lemma float_pair_ok elem a b sx sy fx fy :
  ET.get elem a = Some sx -> ET.get elem b = Some sy ->
  PyFloat.float sx = Ok fx -> PyFloat.float sy = Ok fy ->
  float_pair elem a b = Ok (PyFloat fx, PyFloat fy).
Proof.
  intros Ha Hb Hx Hy. unfold float_pair, ET.get_or.
  rewrite Ha, Hb, Hx; simpl. rewrite Hy; reflexivity.
Qed.

Lemma has_get elem key v : ET.get elem key = Some v -> ET.has key elem = true.
Proof. unfold ET.has, ET.get. now intros ->. Qed.

Lemma position_from_d elem d :
  no_point_attributes elem ->
  ET.get elem "d" = Some d ->
  position_of elem
  = match move_to_pair d with
    | Some (g1, g2) =>
        rbind (PyFloat.float g1)
          (fun x => rbind (PyFloat.float g2) (fun y => Ok (PyFloat x, PyFloat y)))
    | None => Ok (PyInt 0, PyInt 0)
    end.
Proof.
  intros (H1 & H2 & H3) Hget. unfold position_of.
  rewrite H1, H2, H3, Hget, search_move_to.
  destruct (move_to_pair d) as [[g1 g2]|]; reflexivity.
Qed.

Lemma move_to_pair_example (rest : string) :
  (rest = "" \/ exists c t, rest = String c t /\ Re.digit_dot_minus c = false) ->
  move_to_pair ("M 12.5,7" ++ rest) = Some ("12.5", "7").
Proof.
  intros Hrest.
  pose proof (move_to_example rest Hrest) as H.
  rewrite search_move_to in H.
  destruct (move_to_pair ("M 12.5,7" ++ rest)) as [[g1 g2]|]; simpl in H.
  - now injection H as -> ->.
  - discriminate H.
Qed.

(** C9, as stated, fails in its fourth rule.  The path
    [trailing_minus_path] has none of the attribute pairs and a [d]
    that starts with [M 12.5,7], yet reading its position raises: the
    second run taken is [7-3], which is not a number, and the extraction
    of its graphic returns no coordinate at all instead of (12.5, 7).
    And the path [single_number_path], whose [d] is [M 10] and holds no
    pair, is given (1, 0) and not (0, 0). *)
Lemma move_to_prefix_does_not_decide :
  no_point_attributes Sample3.trailing_minus_path
  /\ (exists rest, ET.get Sample3.trailing_minus_path "d" = Some ("M 12.5,7" ++ rest))
  /\ position_of Sample3.trailing_minus_path = Raise ValueError
  /\ position_of Sample3.trailing_minus_path <> Ok (PyFloat 12.5, PyFloat 7)
  /\ parse_connector_positions Sample3.parse "led" Sample3.trailing_minus_svg = []
  /\ no_point_attributes Sample3.single_number_path
  /\ ET.get Sample3.single_number_path "d" = Some "M 10"
  /\ position_of Sample3.single_number_path = Ok (PyFloat 1, PyFloat 0)
  /\ position_of Sample3.single_number_path <> Ok (PyInt 0, PyInt 0).
Proof.
  split; [repeat split|].
  split; [exists "-3,2"; reflexivity|].
  split; [reflexivity|].
  split; [discriminate|].
  split; [reflexivity|].
  split; [repeat split|].
  split; [reflexivity|].
  split; [reflexivity|].
  discriminate.
Qed.

(** C9, amended: the position of a candidate element is read from cx/cy
    when both are present; else from x/y; else from x1/y1; else from the
    [d] attribute, by this rule: of the first [M] in [d] that is
    followed, after optional whitespace, by a run of characters from
    [[0-9.-]], x is that run and y is the next such run after optional
    whitespace, an optional comma and optional whitespace; when no second
    run follows and the run has two characters or more, x is the run
    without its last character and y is that last character; an [M]
    with neither is passed over.  A [d] that starts with [M 12.5,7],
    where the end of the text or a character outside [[0-9.-]] follows
    the 7, gives (12.5, 7) on an element without the attribute pairs.
    An element without the pairs, and with no [d] or a [d] in which the
    rule finds nothing, gives (0, 0), a normal result.  When a text the
    rule selects is not a number, reading the position raises.  The
    coordinate extracted for a candidate is this position. *)
Theorem coordinate_priority (elem : Element) :
  (forall sx sy fx fy,
     ET.get elem "cx" = Some sx -> ET.get elem "cy" = Some sy ->
     PyFloat.float sx = Ok fx -> PyFloat.float sy = Ok fy ->
     position_of elem = Ok (PyFloat fx, PyFloat fy))
  /\ (forall sx sy fx fy,
        ET.has "cx" elem && ET.has "cy" elem = false ->
        ET.get elem "x" = Some sx -> ET.get elem "y" = Some sy ->
        PyFloat.float sx = Ok fx -> PyFloat.float sy = Ok fy ->
        position_of elem = Ok (PyFloat fx, PyFloat fy))
  /\ (forall sx sy fx fy,
        ET.has "cx" elem && ET.has "cy" elem = false ->
        ET.has "x" elem && ET.has "y" elem = false ->
        ET.get elem "x1" = Some sx -> ET.get elem "y1" = Some sy ->
        PyFloat.float sx = Ok fx -> PyFloat.float sy = Ok fy ->
        position_of elem = Ok (PyFloat fx, PyFloat fy))
  /\ (forall d g1 g2 fx fy,
        no_point_attributes elem ->
        ET.get elem "d" = Some d ->
        move_to_pair d = Some (g1, g2) ->
        PyFloat.float g1 = Ok fx -> PyFloat.float g2 = Ok fy ->
        position_of elem = Ok (PyFloat fx, PyFloat fy))
  /\ (forall d g1 g2,
        no_point_attributes elem ->
        ET.get elem "d" = Some d ->
        move_to_pair d = Some (g1, g2) ->
        (exists e, PyFloat.float g1 = Raise e) \/ (exists e, PyFloat.float g2 = Raise e) ->
        exists e, position_of elem = Raise e)
  /\ (forall rest,
        no_point_attributes elem ->
        ET.get elem "d" = Some ("M 12.5,7" ++ rest) ->
        (rest = "" \/ exists c t, rest = String c t /\ Re.digit_dot_minus c = false) ->
        position_of elem = Ok (PyFloat 12.5, PyFloat 7))
  /\ (no_point_attributes elem ->
      (ET.get elem "d" = None
       \/ exists d, ET.get elem "d" = Some d /\ move_to_pair d = None) ->
      position_of elem = Ok (PyInt 0, PyInt 0))
  /\ (forall p connectors,
        is_pin_candidate (ET.get_or elem "id" "") = true ->
        position_of elem = Ok p ->
        scan_element connectors elem
        = Ok (connectors ++ [{| sc_id := base_id (ET.get_or elem "id" "");
                                sc_x := fst p; sc_y := snd p |}])%list).
Proof.
  assert (Hd : forall d g1 g2 fx fy,
             no_point_attributes elem ->
             ET.get elem "d" = Some d ->
             move_to_pair d = Some (g1, g2) ->
             PyFloat.float g1 = Ok fx -> PyFloat.float g2 = Ok fy ->
             position_of elem = Ok (PyFloat fx, PyFloat fy)).
  { intros d g1 g2 fx fy Hno Hget Hpair Hx Hy.
    rewrite (position_from_d elem d Hno Hget), Hpair, Hx; simpl.
    rewrite Hy; reflexivity. }
  split; [|split; [|split; [|split; [|split; [|split; [|split]]]]]].
  - intros sx sy fx fy Hx Hy Fx Fy. unfold position_of.
    rewrite (has_get _ _ _ Hx), (has_get _ _ _ Hy); simpl.
    apply (float_pair_ok _ _ _ _ _ _ _ Hx Hy Fx Fy).
  - intros sx sy fx fy H1 Hx Hy Fx Fy. unfold position_of.
    rewrite H1, (has_get _ _ _ Hx), (has_get _ _ _ Hy); simpl.
    apply (float_pair_ok _ _ _ _ _ _ _ Hx Hy Fx Fy).
  - intros sx sy fx fy H1 H2 Hx Hy Fx Fy. unfold position_of.
    rewrite H1, H2, (has_get _ _ _ Hx), (has_get _ _ _ Hy); simpl.
    apply (float_pair_ok _ _ _ _ _ _ _ Hx Hy Fx Fy).
  - exact Hd.
  - intros d g1 g2 Hno Hget Hpair Hbad.
    rewrite (position_from_d elem d Hno Hget), Hpair.
    destruct Hbad as [[e He] | [e He]].
    + rewrite He. exists e. reflexivity.
    + rewrite He. destruct (PyFloat.float g1) as [x|e']; simpl; eauto.
  - intros rest Hno Hget Hrest.
    apply (Hd _ "12.5" "7" _ _ Hno Hget (move_to_pair_example rest Hrest));
      reflexivity.
  - intros Hno [Hnone | [d [Hget Hpair]]].
    + destruct Hno as (H1 & H2 & H3). unfold position_of.
      rewrite H1, H2, H3, Hnone. reflexivity.
    + rewrite (position_from_d elem d Hno Hget), Hpair. reflexivity.
  - intros p connectors Hc Hp. apply scan_candidate; assumption.
Qed.

Lemma coordinate_priority_witness :
  position_of Sample.twin_circle = Ok (PyFloat 1, PyFloat 2)
  /\ position_of Sample.twin_rect = Ok (PyFloat 3, PyFloat 4)
  /\ position_of Sample.line_elem = Ok (PyFloat 4, PyFloat 5)
  /\ position_of Sample3.spaced_path = Ok (PyFloat 3.5, PyFloat 4)
  /\ position_of Sample3.single_number_path = Ok (PyFloat 1, PyFloat 0)
  /\ (exists e, position_of Sample3.trailing_minus_path = Raise e)
  /\ position_of Sample.path_elem = Ok (PyFloat 12.5, PyFloat 7)
  /\ position_of Sample.group_elem = Ok (PyInt 0, PyInt 0)
  /\ scan_element [] Sample.path_elem
     = Ok [{| sc_id := "connector1"; sc_x := PyFloat 12.5; sc_y := PyFloat 7 |}].
Proof.
  split; [|split; [|split; [|split; [|split; [|split; [|split; [|split]]]]]]].
  - apply (proj1 (coordinate_priority Sample.twin_circle) "1" "2"); reflexivity.
  - apply (proj1 (proj2 (coordinate_priority Sample.twin_rect)) "3" "4");
      reflexivity.
  - apply (proj1 (proj2 (proj2 (coordinate_priority Sample.line_elem))) "4" "5");
      reflexivity.
  - apply (proj1 (proj2 (proj2 (proj2 (coordinate_priority Sample3.spaced_path))))
             "L 1 2 M 3.5 4" "3.5" "4");
      try reflexivity.
    repeat split.
  - apply (proj1 (proj2 (proj2 (proj2
             (coordinate_priority Sample3.single_number_path))))
             "M 10" "1" "0");
      try reflexivity.
    repeat split.
  - apply (proj1 (proj2 (proj2 (proj2 (proj2
             (coordinate_priority Sample3.trailing_minus_path)))))
             "M 12.5,7-3,2" "12.5" "7-3").
    + repeat split.
    + reflexivity.
    + reflexivity.
    + right. exists ValueError. reflexivity.
  - apply (proj1 (proj2 (proj2 (proj2 (proj2 (proj2
             (coordinate_priority Sample.path_elem)))))) " L 20,7").
    + repeat split.
    + reflexivity.
    + right. exists " "%char, "L 20,7". split; reflexivity.
  - apply (proj1 (proj2 (proj2 (proj2 (proj2 (proj2 (proj2
             (coordinate_priority Sample.group_elem)))))))).
    + repeat split.
    + left. reflexivity.
  - apply (proj2 (proj2 (proj2 (proj2 (proj2 (proj2 (proj2
             (coordinate_priority Sample.path_elem)))))))
             (PyFloat 12.5, PyFloat 7) []); reflexivity.
Defined.

Lemma viewbox_parts_four root viewbox a b p2 p3 :
  ET.get root "viewBox" = Some viewbox ->
  Str.split viewbox = [a; b; p2; p3] ->
  viewbox_parts root = Some (p2, p3).
Proof.
  intros Hget Hsplit. unfold viewbox_parts. rewrite Hget.
  destruct viewbox as [|c t]; [discriminate Hsplit|].
  simpl Str.truthy. cbv iota. rewrite Hsplit. reflexivity.
Qed.

Lemma viewbox_parts_none root :
  no_viewbox_of_four root -> viewbox_parts root = None.
Proof.
  intros [Hnone | [viewbox [Hget Hlen]]]; unfold viewbox_parts.
  - now rewrite Hnone.
  - rewrite Hget. destruct (Str.truthy viewbox); [|reflexivity].
    destruct (Str.split viewbox) as [|a [|b [|c [|d [|e l]]]]];
      try reflexivity.
    exfalso. apply Hlen. reflexivity.
Qed.

Lemma dimensions_from_attributes root w h :
  viewbox_parts root = None ->
  first_number_of (ET.get_or root "width" "72") = Some w ->
  first_number_of (ET.get_or root "height" "93.6") = Some h ->
  dimensions_of root
  = Ok (Some (to_pixels (ET.get_or root "width" "72") w,
              to_pixels (ET.get_or root "height" "93.6") h)).
Proof.
  intros Hvb Hw Hh. unfold dimensions_of, first_number_of in *. rewrite Hvb.
  cbv zeta.
  destruct (Re.search Re.first_number (ET.get_or root "width" "72"))
    as [[|gw [|]]|]; try discriminate Hw.
  destruct (Re.search Re.first_number (ET.get_or root "height" "93.6"))
    as [[|gh [|]]|]; try discriminate Hh.
  destruct (PyFloat.float gw) as [fw|]; [|discriminate Hw].
  destruct (PyFloat.float gh) as [fh|]; [|discriminate Hh].
  injection Hw as ->. injection Hh as ->. reflexivity.
Qed.

Lemma dimensions_without_number root :
  viewbox_parts root = None ->
  first_number_of (ET.get_or root "width" "72") = None
  \/ first_number_of (ET.get_or root "height" "93.6") = None ->
  dimensions_of root = Ok None \/ exists e, dimensions_of root = Raise e.
Proof.
  intros Hvb H. unfold dimensions_of, first_number_of in *. rewrite Hvb.
  cbv zeta.
  destruct (Re.search Re.first_number (ET.get_or root "width" "72"))
    as [[|gw [|]]|]; auto;
  destruct (Re.search Re.first_number (ET.get_or root "height" "93.6"))
    as [[|gh [|]]|]; auto.
  destruct (PyFloat.float gw) as [fw|e]; simpl; [|right; eauto].
  destruct (PyFloat.float gh) as [fh|e]; simpl; [|right; eauto].
  destruct H; discriminate.
Qed.

Lemma float_neq (f g : float) :
  PrimFloat.eqb f f = true -> PrimFloat.eqb g f = false -> f <> g.
Proof. intros Hf Hg E. subst g. rewrite Hf in Hg. discriminate. Qed.

(** C10, as stated, fails: the root of [odd_viewbox_svg] has the viewBox
    [0 0 a b], which is not four numbers, and width [10] and height [20],
    whose first numeric substrings are 10 and 20 with no unit; the second
    level of the stated priority gives (10, 20), the code gives the
    fallback (72, 93.6). *)
Lemma viewbox_of_four_words_skips_attributes :
  Sample.fromstring Sample.odd_viewbox_svg = Ok Sample.odd_viewbox_root
  /\ ET.get Sample.odd_viewbox_root "viewBox" = Some "0 0 a b"
  /\ PyFloat.float "a" = Raise ValueError
  /\ first_number_of (ET.get_or Sample.odd_viewbox_root "width" "72") = Some 10%float
  /\ first_number_of (ET.get_or Sample.odd_viewbox_root "height" "93.6") = Some 20%float
  /\ get_svg_dimensions Sample.fromstring Sample.odd_viewbox_svg = default_dimensions
  /\ fst (get_svg_dimensions Sample.fromstring Sample.odd_viewbox_svg) <> 10%float.
Proof.
  repeat split; try reflexivity.
  apply float_neq; reflexivity.
Qed.

(** C10, amended: a viewBox that splits into four whitespace-separated
    parts decides alone: when its third and fourth parts are numbers they
    are the dimensions, and when one of them is not a number the result
    is the fallback (72, 93.6), whatever width and height say.  Without
    such a viewBox, width and height are read, an absent width counting
    as [72] and an absent height as [93.6]: the first numeric substring of
    each, times 72 for each axis whose value contains [in]; and when one
    of the two has no numeric substring that is a number the result is
    the fallback.  So [viewBox="0 0 36 79.2"] gives (36, 79.2),
    [width="1in" height="2in"] without viewBox gives (72, 144), and a root
    with none of the three gives (72, 93.6). *)
Theorem dimension_priority
  (fromstring : string -> result Element) (svg_content : string) (root : Element) :
  fromstring svg_content = Ok root ->
  (forall viewbox a b p2 p3 w h,
     ET.get root "viewBox" = Some viewbox ->
     Str.split viewbox = [a; b; p2; p3] ->
     PyFloat.float p2 = Ok w -> PyFloat.float p3 = Ok h ->
     get_svg_dimensions fromstring svg_content = (w, h))
  /\ (forall viewbox a b p2 p3,
        ET.get root "viewBox" = Some viewbox ->
        Str.split viewbox = [a; b; p2; p3] ->
        (exists e, PyFloat.float p2 = Raise e) \/ (exists e, PyFloat.float p3 = Raise e) ->
        get_svg_dimensions fromstring svg_content = (72, 93.6)%float)
  /\ (forall w h,
        no_viewbox_of_four root ->
        first_number_of (ET.get_or root "width" "72") = Some w ->
        first_number_of (ET.get_or root "height" "93.6") = Some h ->
        get_svg_dimensions fromstring svg_content
        = (to_pixels (ET.get_or root "width" "72") w,
           to_pixels (ET.get_or root "height" "93.6") h))
  /\ (no_viewbox_of_four root ->
      first_number_of (ET.get_or root "width" "72") = None
      \/ first_number_of (ET.get_or root "height" "93.6") = None ->
      get_svg_dimensions fromstring svg_content = (72, 93.6)%float)
  /\ (ET.get root "viewBox" = Some "0 0 36 79.2" ->
      get_svg_dimensions fromstring svg_content = (36, 79.2)%float)
  /\ (ET.get root "viewBox" = None ->
      ET.get root "width" = Some "1in" -> ET.get root "height" = Some "2in" ->
      get_svg_dimensions fromstring svg_content = (72, 144)%float)
  /\ (ET.get root "viewBox" = None ->
      ET.get root "width" = None -> ET.get root "height" = None ->
      get_svg_dimensions fromstring svg_content = (72, 93.6)%float).
Proof.
  intros Hroot.
  assert (Hfour : forall viewbox a b p2 p3 w h,
             ET.get root "viewBox" = Some viewbox ->
             Str.split viewbox = [a; b; p2; p3] ->
             PyFloat.float p2 = Ok w -> PyFloat.float p3 = Ok h ->
             get_svg_dimensions fromstring svg_content = (w, h)).
  { intros viewbox a b p2 p3 w h Hget Hsplit Hw Hh.
    unfold get_svg_dimensions. rewrite Hroot; simpl. unfold dimensions_of.
    rewrite (viewbox_parts_four _ _ _ _ _ _ Hget Hsplit), Hw; simpl.
    rewrite Hh; reflexivity. }
  assert (Hattr : forall w h,
             no_viewbox_of_four root ->
             first_number_of (ET.get_or root "width" "72") = Some w ->
             first_number_of (ET.get_or root "height" "93.6") = Some h ->
             get_svg_dimensions fromstring svg_content
             = (to_pixels (ET.get_or root "width" "72") w,
                to_pixels (ET.get_or root "height" "93.6") h)).
  { intros w h Hno Hw Hh. unfold get_svg_dimensions. rewrite Hroot; simpl.
    rewrite (dimensions_from_attributes root w h (viewbox_parts_none _ Hno) Hw Hh).
    reflexivity. }
  split; [exact Hfour|].
  split.
  { intros viewbox a b p2 p3 Hget Hsplit Hbad.
    unfold get_svg_dimensions. rewrite Hroot; simpl. unfold dimensions_of.
    rewrite (viewbox_parts_four _ _ _ _ _ _ Hget Hsplit).
    destruct Hbad as [[e He] | [e He]].
    - rewrite He. reflexivity.
    - rewrite He. destruct (PyFloat.float p2); reflexivity. }
  split; [exact Hattr|].
  split.
  { intros Hno Hnum. unfold get_svg_dimensions. rewrite Hroot; simpl.
    destruct (dimensions_without_number root (viewbox_parts_none _ Hno) Hnum)
      as [-> | [e ->]]; reflexivity. }
  split.
  { intros Hget. apply (Hfour "0 0 36 79.2" "0" "0" "36" "79.2"); auto. }
  split.
  { intros Hvb Hw Hh.
    assert (Hno : no_viewbox_of_four root) by (left; exact Hvb).
    rewrite (Hattr 1%float 2%float Hno).
    - unfold ET.get_or. rewrite Hw, Hh. reflexivity.
    - unfold ET.get_or. rewrite Hw. reflexivity.
    - unfold ET.get_or. rewrite Hh. reflexivity. }
  { intros Hvb Hw Hh.
    assert (Hno : no_viewbox_of_four root) by (left; exact Hvb).
    rewrite (Hattr 72%float 93.6%float Hno).
    - unfold ET.get_or. rewrite Hw, Hh. reflexivity.
    - unfold ET.get_or. rewrite Hw. reflexivity.
    - unfold ET.get_or. rewrite Hh. reflexivity. }
Qed.

Lemma dimension_priority_witness :
  get_svg_dimensions Sample.fromstring Sample.viewbox_svg = (36, 79.2)%float
  /\ get_svg_dimensions Sample.fromstring Sample.inches_svg = (72, 144)%float
  /\ get_svg_dimensions Sample.fromstring Sample.bare_svg = (72, 93.6)%float
  /\ get_svg_dimensions Sample.fromstring Sample.odd_viewbox_svg = (72, 93.6)%float.
Proof.
  split; [|split; [|split]].
  - apply (proj1 (proj2 (proj2 (proj2 (proj2
             (dimension_priority Sample.fromstring Sample.viewbox_svg
                Sample.viewbox_root eq_refl)))))).
    reflexivity.
  - apply (proj1 (proj2 (proj2 (proj2 (proj2 (proj2
             (dimension_priority Sample.fromstring Sample.inches_svg
                Sample.inches_root eq_refl)))))));
      reflexivity.
  - apply (proj2 (proj2 (proj2 (proj2 (proj2 (proj2
             (dimension_priority Sample.fromstring Sample.bare_svg
                Sample.bare_root eq_refl)))))));
      reflexivity.
  - apply (proj1 (proj2
             (dimension_priority Sample.fromstring Sample.odd_viewbox_svg
                Sample.odd_viewbox_root eq_refl)) "0 0 a b" "0" "0" "a" "b").
    + reflexivity.
    + reflexivity.
    + left. exists ValueError. reflexivity.
Defined.

(* ===================================================================== *)
(** ** Graphics that are missing or malformed *)
(* ===================================================================== *)

Lemma parse_connectors_unplaced connectors_elem :
  Forall unplaced (parse_connectors connectors_elem).
Proof.
  destruct connectors_elem as [ce|]; simpl; [|constructor].
  apply Forall_forall. intros c Hc. apply in_map_iff in Hc.
  destruct Hc as [e [<- _]]. repeat split.
Qed.

(** C3, as stated, fails: in a world with no graphic for [led], the
    component comes back with its two pins at (0, 0) and with no
    dimensions attached, where the claim has the fallback 72 x 93.6 on
    every pin. *)
Lemma no_graphic_no_dimensions :
  fst (value (run Sample.answer (get_component_svg init "led" "breadboard")
                Sample.no_graphics)) = None
  /\ map c_svgWidth
       (connectors
          (fst (value (run Sample.answer
                         (update_component_with_connector_positions
                            Sample.fromstring init Sample.led)
                         Sample.no_graphics))))
     = [None; None]
  /\ ~ Forall (fun c => c_svgWidth c = Some (fst default_dimensions)
                        /\ c_svgHeight c = Some (snd default_dimensions))
         (connectors
            (fst (value (run Sample.answer
                           (update_component_with_connector_positions
                              Sample.fromstring init Sample.led)
                           Sample.no_graphics)))).
Proof.
  split; [reflexivity|]. split; [reflexivity|].
  intros H. vm_compute in H. inversion H as [|c l [Hw _] _]. discriminate Hw.
Qed.

(** C3, amended: when no graphic text is available for a component (none
    is found, or the text is empty), the reconciler returns the component
    itself: every pin keeps its coordinate, which is (0, 0) for the pins
    the metadata parser built, and no dimensions are attached to it. *)
Theorem passthrough_without_graphic
  (fromstring : string -> result Element) (W : Type) (h : handler W) (w : W)
  (self : FritzingService) (component : FritzingComponent) :
  fst (value (run h (get_component_svg self (component_id component) "breadboard") w))
  = None
  \/ fst (value (run h (get_component_svg self (component_id component) "breadboard") w))
     = Some "" ->
  fst (value (run h (update_component_with_connector_positions
                       fromstring self component) w)) = component
  /\ forall connectors_elem,
       connectors component = parse_connectors connectors_elem ->
       Forall unplaced
         (connectors
            (fst (value (run h (update_component_with_connector_positions
                                  fromstring self component) w)))).
Proof.
  intros Hsvg.
  assert (Hsame : fst (value (run h (update_component_with_connector_positions
                                       fromstring self component) w)) = component).
  { rewrite update_component_run. cbv zeta.
    destruct Hsvg as [Hsvg | Hsvg]; unfold value in *; cbn [fst snd];
      rewrite Hsvg; reflexivity. }
  split; [exact Hsame|].
  intros connectors_elem Hparsed. rewrite Hsame, Hparsed.
  apply parse_connectors_unplaced.
Qed.

Lemma passthrough_without_graphic_witness :
  fst (value (run Sample.answer
                (update_component_with_connector_positions
                   Sample.fromstring init Sample.led)
                Sample.no_graphics)) = Sample.led
  /\ forall connectors_elem,
       connectors Sample.led = parse_connectors connectors_elem ->
       Forall unplaced
         (connectors
            (fst (value (run Sample.answer
                           (update_component_with_connector_positions
                              Sample.fromstring init Sample.led)
                           Sample.no_graphics)))).
Proof.
  apply (passthrough_without_graphic Sample.fromstring Sample.Disk Sample.answer
           Sample.no_graphics init Sample.led).
  left. reflexivity.
Defined.





(* ===================================================================== *)
(** ** The load *)
(* ===================================================================== *)

Lemma extract_category_raises file_path :
  extract_category file_path = Raise TypeError.
Proof. reflexivity. Qed.

Lemma parse_fzp_root_raises self file_path repository root :
  parse_fzp_root self file_path repository root = Raise TypeError.
Proof.
  unfold parse_fzp_root. destruct (ET.find root "title"); reflexivity.
Qed.

Lemma parse_fzp_file_run {W : Type} (h : handler W) (w : W) self file_path repository :
  run h (parse_fzp_file self file_path repository) w
  = (None, snd (h _ (ParseFile file_path) w), [Called (ParseFile file_path)]).
Proof.
  unfold parse_fzp_file, call; simpl.
  destruct (h _ (ParseFile file_path) w) as [parsed w1]; simpl.
  destruct parsed as [root|e]; simpl; [|reflexivity].
  now rewrite parse_fzp_root_raises.
Qed.

Lemma load_file_keeps fromstring {W : Type} (h : handler W) (w : W) repo fzp_file st :
  fst (value (run h (load_file fromstring repo fzp_file st) w)) = fst st.
Proof.
  unfold load_file. rewrite run_bind, parse_fzp_file_run. reflexivity.
Qed.

Lemma load_repository_keeps fromstring {W : Type} (h : handler W) (w : W) repo st :
  fst (value (run h (load_repository fromstring repo st) w)) = fst st.
Proof.
  unfold load_repository. cbv zeta. rewrite run_bind.
  destruct (run h (call (PathExists (OsPath.join (repo_path (snd st)) [repo]))) w)
    as [[present w1] t1].
  destruct present; [|reflexivity].
  rewrite run_bind.
  destruct (run h (find_fzp_files (OsPath.join (repo_path (snd st)) [repo])) w1)
    as [[fzp_files w2] t2].
  pose proof (for_each_invariant h (fun s => fst s = fst st)
                (load_file fromstring repo)
                (fun x s w0 Hs => eq_trans (load_file_keeps fromstring h w0 repo x s) Hs)
                (firstn 50 fzp_files) st w2 eq_refl) as Hinv.
  destruct (run h (for_each (firstn 50 fzp_files) (load_file fromstring repo) st) w2)
    as [[st2 w3] t3].
  exact Hinv.
Qed.

(** What a load that does not answer from the cache returns: the catalog
    it built, and a service whose cache holds that catalog. *)
Lemma load_components_fresh fromstring {W : Type} (h : handler W) (w : W) self :
  loaded self && negb (Nat.eqb (List.length (components_cache self)) 0) = false ->
  fst (value (run h (load_components fromstring self) w)) = []
  /\ loaded (snd (value (run h (load_components fromstring self) w))) = true
  /\ components_cache (snd (value (run h (load_components fromstring self) w)))
     = fst (value (run h (load_components fromstring self) w)).
Proof.
  intros Hguard. unfold load_components. rewrite Hguard, run_bind.
  destruct (run h (ensure_repository self) w) as [[self1 w1] t1].
  rewrite run_bind.
  pose proof (for_each_invariant h
                (fun s : list FritzingComponent * FritzingService => fst s = [])
                (load_repository fromstring)
                (fun x s w0 Hs =>
                   eq_trans (load_repository_keeps fromstring h w0 x s) Hs)
                ["core"; "contrib"; "user"] ([], self1) w1 eq_refl) as Hinv.
  destruct (run h (for_each ["core"; "contrib"; "user"]
                     (load_repository fromstring) ([], self1)) w1)
    as [[[components self2] w2] t2].
  unfold value in *; cbn [fst snd] in *. subst components.
  repeat split.
Qed.

(** C2 (the code does not do what the claim says): no description
    document ever yields a record.  [parse_fzp_file] calls
    [os.path.basename] with two arguments, so on every document that
    parses as XML it raises [TypeError] inside its [try] and returns
    [None]; a load that does not answer from the cache therefore returns
    an empty catalog, whatever the sub-collections contain. *)
Theorem valid_document_yields_no_record
  (fromstring : string -> result Element) (W : Type) (h : handler W) (w : W)
  (self : FritzingService) :
  loaded self = false \/ components_cache self = [] ->
  (forall file_path repository,
     fst (fst (run h (parse_fzp_file self file_path repository) w)) = None)
  /\ fst (value (run h (load_components fromstring self) w)) = [].
Proof.
  intros Hfresh. split.
  - intros file_path repository. now rewrite parse_fzp_file_run.
  - apply load_components_fresh.
    destruct Hfresh as [-> | ->]; [reflexivity | apply andb_false_r].
Qed.

(** The failing input: [core] holds [broken.fzp], which does not parse,
    and [led.fzp], which does; the load returns no record. *)
Lemma valid_document_yields_no_record_witness :
  (forall file_path repository,
     fst (fst (run Sample.answer (parse_fzp_file init file_path repository)
                 Sample.two_documents)) = None)
  /\ fst (value (run Sample.answer (load_components Sample.fromstring init)
                   Sample.two_documents)) = [].
Proof.
  apply (valid_document_yields_no_record Sample.fromstring Sample.Disk
           Sample.answer Sample.two_documents init).
  left. reflexivity.
Defined.



(* ===================================================================== *)
(** ** Further properties: the metadata parser *)
(* ===================================================================== *)

Lemma lookup_dict_set (d : list (string * string)) (key k v : string) :
  ET.lookup key (dict_set d k v)
  = if String.eqb k key then Some v else ET.lookup key d.
Proof.
  induction d as [|[k' v'] d IH]; simpl.
  - reflexivity.
  - destruct (String.eqb k' k) eqn:E; simpl.
    + apply String.eqb_eq in E; subst k'.
      destruct (String.eqb k key); reflexivity.
    + destruct (String.eqb k' key) eqn:E'; [|exact IH].
      apply String.eqb_eq in E'; subst k'.
      now rewrite String.eqb_sym, E.
Qed.

Lemma keys_dict_set (d : list (string * string)) (k v : string) :
  map fst (dict_set d k v)
  = if existsb (String.eqb k) (map fst d) then map fst d
    else (map fst d ++ [k])%list.
Proof.
  induction d as [|[k' v'] d IH]; simpl.
  - reflexivity.
  - rewrite (String.eqb_sym k k').
    destruct (String.eqb k' k); simpl; [reflexivity|].
    rewrite IH. destruct (existsb (String.eqb k) (map fst d)); reflexivity.
Qed.

Lemma parse_property_step (d : list (string * string)) (prop : Element) :
  parse_property d prop
  = if Str.truthy (property_name prop)
    then dict_set d (property_name prop) (property_value prop)
    else d.
Proof. reflexivity. Qed.

Lemma find_last (f : Element -> bool) (props : list Element) (prop : Element) :
  List.find f (rev (prop :: props))
  = match List.find f (rev props) with
    | Some p => Some p
    | None => if f prop then Some prop else None
    end.
Proof.
  simpl. induction (rev props) as [|q l IH]; simpl.
  - reflexivity.
  - destruct (f q); [reflexivity | exact IH].
Qed.

Lemma lookup_fold_properties (name : string) (props : list Element) :
  name <> "" ->
  forall d,
    ET.lookup name (fold_left parse_property props d)
    = match List.find (fun prop => String.eqb (property_name prop) name) (rev props) with
      | Some prop => Some (property_value prop)
      | None => ET.lookup name d
      end.
Proof.
  intros Hname. induction props as [|prop props IH]; intros d.
  - reflexivity.
  - cbn [fold_left]. rewrite IH, find_last.
    destruct (List.find (fun p => String.eqb (property_name p) name) (rev props));
      [reflexivity|].
    rewrite parse_property_step.
    destruct (String.eqb (property_name prop) name) eqn:E.
    + apply String.eqb_eq in E. rewrite E.
      destruct name; [contradiction|]. simpl Str.truthy. cbv iota.
      now rewrite lookup_dict_set, String.eqb_refl.
    + destruct (Str.truthy (property_name prop)); [|reflexivity].
      now rewrite lookup_dict_set, E.
Qed.

Lemma NoDup_snoc (l : list string) (k : string) :
  NoDup l -> ~ In k l -> NoDup (l ++ [k])%list.
Proof.
  induction l as [|a l IH]; intros Hnd Hin; simpl.
  - constructor; [intros [] | constructor].
  - inversion Hnd as [|a' l' Ha Hl]; subst. constructor.
    + intros H. apply in_app_or in H. destruct H as [H | [<- | []]].
      * exact (Ha H).
      * apply Hin. left; reflexivity.
    + apply IH; [exact Hl|]. intros H. apply Hin. right; exact H.
Qed.

Lemma keys_fold_properties (props : list Element) :
  forall d,
    NoDup (map fst d) -> Forall (fun k => k <> "") (map fst d) ->
    NoDup (map fst (fold_left parse_property props d))
    /\ Forall (fun k => k <> "") (map fst (fold_left parse_property props d)).
Proof.
  induction props as [|prop props IH]; intros d Hnd Hne.
  - split; assumption.
  - cbn [fold_left]. apply IH; rewrite parse_property_step;
      destruct (Str.truthy (property_name prop)) eqn:Ht; try assumption;
      rewrite keys_dict_set;
      destruct (existsb (String.eqb (property_name prop)) (map fst d)) eqn:Ex;
      try assumption.
    + apply NoDup_snoc; [exact Hnd|]. intros Hin.
      assert (existsb (String.eqb (property_name prop)) (map fst d) = true).
      { apply existsb_exists. exists (property_name prop).
        split; [exact Hin | apply String.eqb_refl]. }
      congruence.
    + apply Forall_app. split; [exact Hne|].
      constructor; [|constructor].
      intros E. rewrite E in Ht. discriminate.
Qed.

(** X1: looking a non-empty name up in the result of [parse_properties]
    gives the value of the LAST property element declared with that
    name, and nothing when no property element has that name. *)
Theorem properties_last_declaration_wins (properties_elem : Element) (name : string) :
  name <> "" ->
  ET.lookup name (parse_properties (Some properties_elem))
  = option_map property_value
      (List.find (fun prop => String.eqb (property_name prop) name)
         (rev (ET.findall properties_elem "property"))).
Proof.
  intros Hname. unfold parse_properties.
  rewrite (lookup_fold_properties name _ Hname).
  destruct (List.find _ _); reflexivity.
Qed.

Lemma properties_last_declaration_wins_witness :
  ET.lookup "resistance" (parse_properties (Some Sample2.resistor_properties))
  = Some "470".
Proof.
  rewrite (properties_last_declaration_wins Sample2.resistor_properties "resistance").
  - reflexivity.
  - discriminate.
Defined.

(** X2: the names in the result of [parse_properties] are pairwise
    distinct and none is empty: a property element without a name, or
    with an empty one, leaves no entry, and a repeated name leaves one. *)
Theorem properties_names_distinct (properties_elem : option Element) :
  NoDup (map fst (parse_properties properties_elem))
  /\ Forall (fun k => k <> "") (map fst (parse_properties properties_elem))
  /\ ET.lookup "" (parse_properties properties_elem) = None.
Proof.
  assert (H : NoDup (map fst (parse_properties properties_elem))
              /\ Forall (fun k => k <> "") (map fst (parse_properties properties_elem))).
  { destruct properties_elem as [pe|]; simpl.
    - apply keys_fold_properties; constructor.
    - split; constructor. }
  destruct H as [Hnd Hne]. split; [exact Hnd|]. split; [exact Hne|].
  induction (parse_properties properties_elem) as [|[k v] d IH]; simpl.
  - reflexivity.
  - simpl in Hnd, Hne. inversion Hnd; subst. inversion Hne; subst.
    destruct (String.eqb k "") eqn:E.
    + apply String.eqb_eq in E. contradiction.
    + apply IH; assumption.
Qed.

(* ===================================================================== *)
(** ** Further properties: the repository *)
(* ===================================================================== *)

Lemma string_app_assoc (a b c : string) : (a ++ b) ++ c = a ++ (b ++ c).
Proof. induction a as [|x a IH]; simpl; [reflexivity | now rewrite IH]. Qed.

Lemma rev_acc_app (s acc : string) :
  Str.rev_acc s acc = Str.rev_acc s "" ++ acc.
Proof.
  revert acc; induction s as [|c s IH]; intros acc; simpl.
  - reflexivity.
  - rewrite (IH (String c acc)), (IH (String c "")).
    now rewrite string_app_assoc.
Qed.

Lemma rev_app (a b : string) : Str.rev (a ++ b) = Str.rev b ++ Str.rev a.
Proof.
  unfold Str.rev. induction a as [|c a IH]; simpl.
  - now rewrite (rev_acc_app b ""), string_app_assoc.
  - rewrite (rev_acc_app (a ++ b)), IH, (rev_acc_app a (String c "")).
    now rewrite string_app_assoc.
Qed.

Lemma endswith_app (suffix a b : string) :
  Str.endswith suffix b = true -> Str.endswith suffix (a ++ b) = true.
Proof.
  unfold Str.endswith. rewrite rev_app, !startswith_spec.
  intros [t ->]. exists (t ++ Str.rev a). now rewrite string_app_assoc.
Qed.

Lemma join2_ends (path b : string) : exists a, OsPath.join2 path b = a ++ b.
Proof.
  unfold OsPath.join2. destruct (Str.startswith "/" b).
  - exists "". reflexivity.
  - destruct (negb (Str.truthy path) || Str.endswith "/" path).
    + exists path. reflexivity.
    + exists (path ++ "/"). now rewrite string_app_assoc.
Qed.

Lemma fzp_in_ends (entry : string * list string) :
  Forall (fun p => Str.endswith ".fzp" p = true) (fzp_in entry).
Proof.
  destruct entry as [root filenames]. unfold fzp_in.
  apply Forall_forall. intros p Hp. apply in_map_iff in Hp.
  destruct Hp as [filename [<- Hf]]. apply filter_In in Hf.
  destruct Hf as [_ Hends]. simpl.
  destruct (join2_ends root filename) as [a ->].
  apply endswith_app; exact Hends.
Qed.

(** X3: [find_fzp_files] makes one call, the walk of the directory, and
    every path it returns ends in [.fzp], whatever the walk yields. *)
Theorem find_fzp_files_only_fzp {W : Type} (h : handler W) (w : W)
  (directory : string) :
  trace (run h (find_fzp_files directory) w) = [Called (Walk directory)]
  /\ Forall (fun p => Str.endswith ".fzp" p = true)
       (value (run h (find_fzp_files directory) w)).
Proof.
  unfold find_fzp_files, call; simpl.
  destruct (h _ (Walk directory) w) as [walked w1]. simpl.
  split; [reflexivity|].
  unfold value; simpl.
  induction walked as [|entry rest IH]; simpl.
  - constructor.
  - apply Forall_app. split; [apply fzp_in_ends | exact IH].
Qed.

Lemma ensure_repository_run {W : Type} (h : handler W) (w : W)
  (self : FritzingService) :
  run h (ensure_repository self) w
  = (let '(present, w1) := h _ (PathExists (repo_path self)) w in
     if present
     then (self, w1, [Called (PathExists (repo_path self))])
     else
       let '(found, w2) := h _ (PathExists "./backend/fritzing-parts") w1 in
       if found
       then (set_repo_path self "./backend/fritzing-parts", w2,
             [Called (PathExists (repo_path self));
              Called (PathExists "./backend/fritzing-parts")])
       else (self, snd (h _ (MakeDirs (repo_path self)) w2),
             [Called (PathExists (repo_path self));
              Called (PathExists "./backend/fritzing-parts");
              Called (MakeDirs (repo_path self))])).
Proof.
  unfold ensure_repository, call; simpl.
  destruct (h _ (PathExists (repo_path self)) w) as [present w1].
  destruct present; simpl; [reflexivity|].
  destruct (h _ (PathExists "./backend/fritzing-parts") w1) as [found w2].
  destruct found; simpl; [reflexivity|].
  destruct (h _ (MakeDirs (repo_path self)) w2) as [made w3]. reflexivity.
Qed.

Lemma ensure_repository_frame {W : Type} (h : handler W) (w : W)
  (self : FritzingService) :
  outside_repo_path (value (run h (ensure_repository self) w))
  = outside_repo_path self.
Proof.
  rewrite ensure_repository_run.
  destruct (h _ (PathExists (repo_path self)) w) as [present w1].
  destruct present; [reflexivity|].
  destruct (h _ (PathExists "./backend/fritzing-parts") w1) as [found w2].
  destruct found; reflexivity.
Qed.

(** X4: [ensure_repository] does one of three things, by what the world
    answers.  When the repository path exists it asks once and leaves
    the service as it is.  When it does not, it asks for
    [./backend/fritzing-parts]: when that exists it becomes the
    repository path; when it does not, the repository path is created
    and the service stays as it is, whether or not the creation
    succeeds.  It never touches the base URL, the cache or the loaded
    flag. *)
Theorem ensure_repository_cases {W : Type} (h : handler W) (w : W)
  (self : FritzingService) :
  let present := fst (h _ (PathExists (repo_path self)) w) in
  let w1 := snd (h _ (PathExists (repo_path self)) w) in
  let found := fst (h _ (PathExists "./backend/fritzing-parts") w1) in
  let w2 := snd (h _ (PathExists "./backend/fritzing-parts") w1) in
  let w3 := snd (h _ (MakeDirs (repo_path self)) w2) in
  run h (ensure_repository self) w
  = (if present
     then (self, w1, [Called (PathExists (repo_path self))])
     else if found
          then (set_repo_path self "./backend/fritzing-parts", w2,
                [Called (PathExists (repo_path self));
                 Called (PathExists "./backend/fritzing-parts")])
          else (self, w3,
                [Called (PathExists (repo_path self));
                 Called (PathExists "./backend/fritzing-parts");
                 Called (MakeDirs (repo_path self))]))
  /\ outside_repo_path (value (run h (ensure_repository self) w))
     = outside_repo_path self.
Proof.
  cbv zeta. split; [|apply ensure_repository_frame].
  rewrite ensure_repository_run.
  destruct (h _ (PathExists (repo_path self)) w) as [present w1]. cbn [fst snd].
  destruct present; [reflexivity|].
  destruct (h _ (PathExists "./backend/fritzing-parts") w1) as [found w2].
  cbn [fst snd]. destruct found; reflexivity.
Qed.

Lemma ensure_repository_present {W : Type} (h : handler W) (w : W)
  (self : FritzingService) :
  fst (h _ (PathExists (repo_path self)) w) = true ->
  run h (ensure_repository self) w
  = (self, snd (h _ (PathExists (repo_path self)) w),
     [Called (PathExists (repo_path self))]).
Proof.
  intros H. unfold ensure_repository, call; simpl.
  destruct (h _ (PathExists (repo_path self)) w) as [present w1].
  simpl in H. subst present. reflexivity.
Qed.

(* ===================================================================== *)
(** ** Further properties: graphic retrieval *)
(* ===================================================================== *)

Lemma read_first_local {W : Type} (h : handler W) (directory : string)
  (otherwise : IO (option string)) (filenames : list string) :
  (exists filename,
      In filename filenames
      /\ answers h (PathExists (OsPath.join directory [filename])) true) ->
  forall w,
    existsb is_fetch_call (trace (run h (read_first directory filenames otherwise) w))
    = false
    /\ List.length (filter is_read_call
                      (trace (run h (read_first directory filenames otherwise) w)))
       = 1%nat.
Proof.
  induction filenames as [|name rest IH]; intros [filename [Hin Hex]] w.
  - destruct Hin.
  - simpl. unfold call; simpl.
    destruct (h _ (PathExists (OsPath.join2 directory name)) w) as [present w1] eqn:E.
    destruct present; simpl.
    + destruct (h _ (ReadText (OsPath.join2 directory name)) w1) as [content w2].
      simpl. split; reflexivity.
    + assert (Hrest : In filename rest).
      { destruct Hin as [<- | Hin]; [|exact Hin].
        specialize (Hex w). simpl in Hex. rewrite E in Hex. discriminate. }
      destruct (IH (ex_intro _ filename (conj Hrest Hex)) w1) as [H1 H2].
      destruct (run h (read_first directory rest otherwise) w1) as [[a w2] t].
      unfold trace in *; simpl in *. split; assumption.
Qed.

Lemma get_component_svg_run {W : Type} (h : handler W) (w : W)
  (self : FritzingService) (component_id svg_type : string) :
  answers h (PathExists (repo_path self)) true ->
  run h (get_component_svg self component_id svg_type) w
  = (let w1 := snd (h _ (PathExists (repo_path self)) w) in
     let '(present, w2) := h _ (PathExists (svg_directory self svg_type)) w1 in
     let '(content, w3, t) :=
       run h (if present
              then read_first (svg_directory self svg_type)
                     (possible_filenames component_id svg_type)
                     (fetch (remote_url self component_id svg_type))
              else fetch (remote_url self component_id svg_type)) w2 in
     ((content, self), w3,
      Called (PathExists (repo_path self))
      :: Called (PathExists (svg_directory self svg_type)) :: t)).
Proof.
  intros Hrepo. unfold get_component_svg. rewrite run_bind.
  rewrite (ensure_repository_present h w self (Hrepo w)).
  cbv zeta. rewrite run_bind. unfold call at 1. cbn [run].
  fold (svg_directory self svg_type).
  fold (possible_filenames component_id svg_type).
  fold (remote_url self component_id svg_type).
  destruct (h _ (PathExists (svg_directory self svg_type))
              (snd (h _ (PathExists (repo_path self)) w))) as [present w2].
  cbn [run]. rewrite run_bind.
  destruct (run h (if present
                   then read_first (svg_directory self svg_type)
                          (possible_filenames component_id svg_type)
                          (fetch (remote_url self component_id svg_type))
                   else fetch (remote_url self component_id svg_type)) w2)
    as [[content w3] t].
  cbn [run]. simpl. now rewrite app_nil_r.
Qed.

(** X5: when the repository and its graphics directory exist and one of
    the three candidate files exists, [get_component_svg] reads exactly
    one local file and never asks the remote server, also when reading
    that file fails. *)
Theorem local_graphic_never_fetched {W : Type} (h : handler W) (w : W)
  (self : FritzingService) (component_id svg_type filename : string) :
  answers h (PathExists (repo_path self)) true ->
  answers h (PathExists (svg_directory self svg_type)) true ->
  In filename (possible_filenames component_id svg_type) ->
  answers h (PathExists (OsPath.join (svg_directory self svg_type) [filename])) true ->
  existsb is_fetch_call
    (trace (run h (get_component_svg self component_id svg_type) w)) = false
  /\ List.length
       (filter is_read_call
          (trace (run h (get_component_svg self component_id svg_type) w))) = 1%nat.
Proof.
  intros Hrepo Hdir Hin Hfile.
  rewrite (get_component_svg_run h w self component_id svg_type Hrepo). cbv zeta.
  specialize (Hdir (snd (h _ (PathExists (repo_path self)) w))).
  destruct (h _ (PathExists (svg_directory self svg_type))
              (snd (h _ (PathExists (repo_path self)) w))) as [present w2].
  simpl in Hdir. subst present.
  destruct (read_first_local h (svg_directory self svg_type)
              (fetch (remote_url self component_id svg_type))
              (possible_filenames component_id svg_type)
              (ex_intro _ filename (conj Hin Hfile)) w2) as [H1 H2].
  destruct (run h (read_first (svg_directory self svg_type)
                     (possible_filenames component_id svg_type)
                     (fetch (remote_url self component_id svg_type))) w2)
    as [[content w3] t].
  unfold trace in *; simpl in *. split; assumption.
Qed.

(** X6: when the repository and its graphics directory exist and the
    file [<id>.svg] exists there, the result of [get_component_svg] is
    the text of that file, or [None] when reading it raises; the remote
    server is not tried after a failed read. *)
Theorem first_candidate_decides {W : Type} (h : handler W) (w : W)
  (self : FritzingService) (component_id svg_type : string)
  (content : result string) :
  answers h (PathExists (repo_path self)) true ->
  answers h (PathExists (svg_directory self svg_type)) true ->
  answers h (PathExists (OsPath.join (svg_directory self svg_type)
                           [component_id ++ ".svg"])) true ->
  answers h (ReadText (OsPath.join (svg_directory self svg_type)
                         [component_id ++ ".svg"])) content ->
  value (run h (get_component_svg self component_id svg_type) w)
  = (match content with Ok s => Some s | Raise _ => None end, self)
  /\ trace (run h (get_component_svg self component_id svg_type) w)
     = [ Called (PathExists (repo_path self));
         Called (PathExists (svg_directory self svg_type));
         Called (PathExists (OsPath.join (svg_directory self svg_type)
                               [component_id ++ ".svg"]));
         Called (ReadText (OsPath.join (svg_directory self svg_type)
                             [component_id ++ ".svg"])) ].
Proof.
  intros Hrepo Hdir Hfile Hread.
  rewrite (get_component_svg_run h w self component_id svg_type Hrepo). cbv zeta.
  specialize (Hdir (snd (h _ (PathExists (repo_path self)) w))).
  destruct (h _ (PathExists (svg_directory self svg_type))
              (snd (h _ (PathExists (repo_path self)) w))) as [present w2].
  simpl in Hdir. subst present.
  unfold possible_filenames. cbn [read_first]. unfold call. cbn [bind run].
  specialize (Hfile w2).
  destruct (h _ (PathExists (OsPath.join (svg_directory self svg_type)
                               [component_id ++ ".svg"])) w2) as [present w3].
  simpl in Hfile. subst present. cbn [bind run].
  specialize (Hread w3).
  destruct (h _ (ReadText (OsPath.join (svg_directory self svg_type)
                             [component_id ++ ".svg"])) w3) as [got w4].
  simpl in Hread. subst got. cbn [bind run]. split; reflexivity.
Qed.

(** X7: when the repository exists and its graphics directory does not,
    [get_component_svg] asks the remote server once, for
    [<base>/svg/core/<view>/<id>.svg], and returns the body exactly when
    the status is 200 and the body can be read; any other status, and
    any error, gives [None]. *)
Theorem remote_graphic_needs_status_200 {W : Type} (h : handler W) (w : W)
  (self : FritzingService) (component_id svg_type : string)
  (response : result (Z * result string)) :
  answers h (PathExists (repo_path self)) true ->
  answers h (PathExists (svg_directory self svg_type)) false ->
  answers h (HttpGet (remote_url self component_id svg_type)) response ->
  value (run h (get_component_svg self component_id svg_type) w)
  = (match response with
     | Ok (status, Ok body) => if (status =? 200)%Z then Some body else None
     | _ => None
     end, self)
  /\ trace (run h (get_component_svg self component_id svg_type) w)
     = [ Called (PathExists (repo_path self));
         Called (PathExists (svg_directory self svg_type));
         Called (HttpGet (remote_url self component_id svg_type)) ].
Proof.
  intros Hrepo Hdir Hget.
  rewrite (get_component_svg_run h w self component_id svg_type Hrepo). cbv zeta.
  specialize (Hdir (snd (h _ (PathExists (repo_path self)) w))).
  destruct (h _ (PathExists (svg_directory self svg_type))
              (snd (h _ (PathExists (repo_path self)) w))) as [present w2].
  simpl in Hdir. subst present.
  unfold fetch, call. cbn [bind run].
  specialize (Hget w2).
  destruct (h _ (HttpGet (remote_url self component_id svg_type)) w2) as [got w3].
  simpl in Hget. subst got. cbn [bind run]. split; [|reflexivity].
  unfold value; cbn [fst snd].
  destruct response as [[status [body|e]]|e]; try reflexivity.
  destruct (status =? 200)%Z; reflexivity.
Qed.

(* ===================================================================== *)
(** ** Further properties: reconciliation *)
(* ===================================================================== *)

Lemma get_component_svg_service {W : Type} (h : handler W) (w : W)
  (self : FritzingService) (component_id svg_type : string) :
  snd (value (run h (get_component_svg self component_id svg_type) w))
  = value (run h (ensure_repository self) w).
Proof.
  unfold get_component_svg. rewrite run_bind.
  destruct (run h (ensure_repository self) w) as [[self1 w1] t1].
  cbv zeta. rewrite run_bind.
  destruct (run h (call (PathExists
                           (OsPath.join (repo_path self1) ["svg"; "core"; svg_type]))) w1)
    as [[present w2] t2].
  rewrite run_bind.
  match goal with
  | |- context [run h ?p w2] => destruct (run h p w2) as [[content w3] t3]
  end.
  reflexivity.
Qed.

(** X8: [update_component_with_connector_positions] changes nothing of a
    component but its pins, makes exactly the calls of the retrieval of
    the breadboard graphic, and leaves the base URL, the cache and the
    loaded flag of the service as they were. *)
Theorem update_touches_only_connectors
  (fromstring : string -> result Element) {W : Type} (h : handler W) (w : W)
  (self : FritzingService) (component : FritzingComponent) :
  outside_connectors
    (fst (value (run h (update_component_with_connector_positions
                          fromstring self component) w)))
  = outside_connectors component
  /\ trace (run h (update_component_with_connector_positions
                     fromstring self component) w)
     = trace (run h (get_component_svg self (component_id component) "breadboard") w)
  /\ outside_repo_path
       (snd (value (run h (update_component_with_connector_positions
                             fromstring self component) w)))
     = outside_repo_path self.
Proof.
  rewrite update_component_run. cbv zeta.
  unfold value at 1 3; unfold trace at 1; cbn [fst snd].
  split; [|split].
  - destruct (fst (value (run h (get_component_svg self (component_id component)
                                   "breadboard") w))) as [s|]; [|reflexivity].
    destruct (Str.truthy s); [|reflexivity].
    unfold reconcile.
    destruct (get_svg_dimensions fromstring s). reflexivity.
  - reflexivity.
  - rewrite get_component_svg_service.
    apply ensure_repository_frame.
Qed.

(** X9: when a non-empty graphic text is retrieved, every pin of the
    returned component carries the dimensions extracted from that text,
    whether or not a coordinate was found for it. *)
Theorem pins_carry_graphic_dimensions
  (fromstring : string -> result Element) {W : Type} (h : handler W) (w : W)
  (self : FritzingService) (component : FritzingComponent) (s : string) :
  fst (value (run h (get_component_svg self (component_id component) "breadboard") w))
  = Some s ->
  Str.truthy s = true ->
  Forall (fun c => c_svgWidth c = Some (fst (get_svg_dimensions fromstring s))
                   /\ c_svgHeight c = Some (snd (get_svg_dimensions fromstring s)))
    (connectors
       (fst (value (run h (update_component_with_connector_positions
                             fromstring self component) w)))).
Proof.
  intros Hsvg Htext. rewrite update_component_run. cbv zeta.
  unfold value at 1; cbn [fst snd]. rewrite Hsvg, Htext.
  unfold reconcile.
  destruct (get_svg_dimensions fromstring s) as [width height].
  cbn [connectors with_connectors fst snd]. unfold updated_connectors.
  apply Forall_forall. intros c Hc. apply in_map_iff in Hc.
  destruct Hc as [c0 [<- _]]. split; reflexivity.
Qed.

(** X10: the position of a reconciled pin is never mixed: either both x
    and y are those of one coordinate of the list, which the condition
    accepts for the pin, or no coordinate of the list is accepted and
    both x and y are the pin's own. *)
Theorem pin_position_is_atomic (svg_connectors : list SvgConnector)
  (width height : float) (connector : Connector) :
  (exists sc,
      In sc svg_connectors /\ matches connector sc = true
      /\ c_x (update_connector svg_connectors width height connector) = sc_x sc
      /\ c_y (update_connector svg_connectors width height connector) = sc_y sc)
  \/ ((forall sc, In sc svg_connectors -> matches connector sc = false)
      /\ c_x (update_connector svg_connectors width height connector) = c_x connector
      /\ c_y (update_connector svg_connectors width height connector) = c_y connector).
Proof.
  unfold update_connector, find_svg_connector; simpl.
  destruct (List.find (matches connector) svg_connectors) as [sc|] eqn:E.
  - left. exists sc. apply find_some in E. destruct E as [Hin Hm]. auto.
  - right. split; [|split; reflexivity].
    intros sc Hin. apply (find_none _ _ E sc Hin).
Qed.

(** X11: the substring rules accept the empty string.  A pin declared
    with an empty id matches every coordinate and so takes the position
    of the first coordinate of a non-empty list; and a coordinate with
    an empty identifier matches every pin. *)
Theorem empty_identifier_matches_everything :
  (forall sc rest width height connector,
     c_id connector = "" ->
     c_x (update_connector (sc :: rest) width height connector) = sc_x sc
     /\ c_y (update_connector (sc :: rest) width height connector) = sc_y sc)
  /\ (forall connector sc, sc_id sc = "" -> matches connector sc = true).
Proof.
  split.
  - intros sc rest width height connector Hid.
    apply (update_connector_first_match connector [] sc rest width height).
    + intros o [].
    + unfold matches. rewrite Hid, contains_empty. apply orb_true_r.
  - intros connector sc Hid. unfold matches. rewrite Hid, contains_empty.
    apply orb_true_iff; left. apply orb_true_r.
Qed.

(* ===================================================================== *)
(** ** Further properties: extraction *)
(* ===================================================================== *)

Lemma scan_elements_raises (elems : list Element) (elem : Element) (ex : exn) :
  In elem elems ->
  is_pin_candidate (elem_id elem) = true ->
  position_of elem = Raise ex ->
  forall connectors, exists ex', scan_elements connectors elems = Raise ex'.
Proof.
  intros Hin Hc Hp. induction elems as [|e rest IH]; intros connectors.
  - destruct Hin.
  - simpl. destruct Hin as [-> | Hin].
    + unfold scan_element. fold (elem_id elem). rewrite Hc, Hp. simpl. eauto.
    + destruct (scan_element connectors e) as [found|ex']; simpl; [|eauto].
      apply (IH Hin).
Qed.

(** X12: extraction is all or nothing.  When one candidate element of a
    graphic has a position that cannot be read as numbers, the extracted
    list is empty: the coordinates of the other candidates, also of
    those met before it, are lost. *)
Theorem unreadable_position_empties_extraction
  (fromstring : string -> result Element) (component_id svg_content : string)
  (root elem : Element) (ex : exn) :
  fromstring svg_content = Ok root ->
  In elem (ET.iter root) ->
  is_pin_candidate (elem_id elem) = true ->
  position_of elem = Raise ex ->
  parse_connector_positions fromstring component_id svg_content = [].
Proof.
  intros Hroot Hin Hc Hp. unfold parse_connector_positions.
  rewrite Hroot; simpl.
  destruct (scan_elements_raises _ _ _ Hin Hc Hp []) as [ex' ->]. reflexivity.
Qed.

Lemma unreadable_position_empties_extraction_witness :
  position_of Sample2.mixed_circle = Ok (PyFloat 1, PyFloat 2)
  /\ parse_connector_positions Sample2.parse "led" Sample2.mixed_svg = [].
Proof.
  split; [reflexivity|].
  apply (unreadable_position_empties_extraction Sample2.parse "led"
           Sample2.mixed_svg Sample2.mixed_root Sample2.mixed_rect ValueError).
  - reflexivity.
  - right; right; left; reflexivity.
  - reflexivity.
  - reflexivity.
Defined.

Lemma scan_elements_readable (elems : list Element) :
  (forall elem, In elem elems -> is_pin_candidate (elem_id elem) = true ->
                exists p, position_of elem = Ok p) ->
  forall connectors,
  exists found,
    scan_elements connectors elems = Ok (connectors ++ found)%list
    /\ Forall2 (fun elem sc => sc_id sc = base_id (elem_id elem)
                               /\ position_of elem = Ok (sc_x sc, sc_y sc))
         (filter (fun elem => is_pin_candidate (elem_id elem)) elems) found.
Proof.
  induction elems as [|e rest IH]; intros Hread connectors.
  - exists []. simpl. split; [now rewrite app_nil_r | constructor].
  - assert (Hrest : forall elem, In elem rest ->
                      is_pin_candidate (elem_id elem) = true ->
                      exists p, position_of elem = Ok p).
    { intros elem Hin. apply Hread. now right. }
    simpl. destruct (is_pin_candidate (elem_id e)) eqn:Hc.
    + destruct (Hread e (or_introl eq_refl) Hc) as [p Hp].
      rewrite (scan_candidate connectors e p Hc Hp). simpl.
      destruct (IH Hrest (connectors
                          ++ [{| sc_id := base_id (ET.get_or e "id" "");
                                 sc_x := fst p; sc_y := snd p |}])%list)
        as [found [Hscan Hall]].
      exists ({| sc_id := base_id (ET.get_or e "id" "");
                 sc_x := fst p; sc_y := snd p |} :: found).
      split.
      * rewrite Hscan. now rewrite <- app_assoc.
      * constructor; [|exact Hall]. simpl. split; [reflexivity|].
        rewrite Hp. now destruct p.
    + rewrite (scan_other connectors e Hc). simpl. apply (IH Hrest).
Qed.

(** X13: when every candidate element of a graphic has a readable
    position, the extracted list has one coordinate per candidate, in
    traversal order, each with the candidate's identifier stripped of
    [pin] and [pad] and with the candidate's position. *)
Theorem extraction_follows_traversal
  (fromstring : string -> result Element) (component_id svg_content : string)
  (root : Element) :
  fromstring svg_content = Ok root ->
  (forall elem, In elem (ET.iter root) -> is_pin_candidate (elem_id elem) = true ->
                exists p, position_of elem = Ok p) ->
  Forall2 (fun elem sc => sc_id sc = base_id (elem_id elem)
                          /\ position_of elem = Ok (sc_x sc, sc_y sc))
    (filter (fun elem => is_pin_candidate (elem_id elem)) (ET.iter root))
    (parse_connector_positions fromstring component_id svg_content).
Proof.
  intros Hroot Hread. unfold parse_connector_positions.
  rewrite Hroot; simpl.
  destruct (scan_elements_readable _ Hread []) as [found [-> Hall]].
  exact Hall.
Qed.

Lemma extraction_follows_traversal_witness :
  Forall2 (fun elem sc => sc_id sc = base_id (elem_id elem)
                          /\ position_of elem = Ok (sc_x sc, sc_y sc))
    [Sample.twin_circle; Sample.twin_rect]
    (parse_connector_positions Sample.fromstring "led" Sample.twin_svg).
Proof.
  apply (extraction_follows_traversal Sample.fromstring "led" Sample.twin_svg
           Sample.twin_root).
  - reflexivity.
  - intros elem [<- | [<- | [<- | []]]] Hc.
    + discriminate Hc.
    + exists (PyFloat 1, PyFloat 2). reflexivity.
    + exists (PyFloat 3, PyFloat 4). reflexivity.
Defined.

(* ===================================================================== *)
(** ** Further properties: the load *)
(* ===================================================================== *)

Lemma parsed_paths_app (t1 t2 : list io_call) :
  parsed_paths (t1 ++ t2) = (parsed_paths t1 ++ parsed_paths t2)%list.
Proof. unfold parsed_paths. apply flat_map_app. Qed.

Lemma load_file_run fromstring {W : Type} (h : handler W) (w : W) repo fzp_file st :
  run h (load_file fromstring repo fzp_file st) w
  = (st, snd (h _ (ParseFile fzp_file) w), [Called (ParseFile fzp_file)]).
Proof.
  unfold load_file. rewrite run_bind, parse_fzp_file_run. reflexivity.
Qed.

Lemma load_files_run fromstring {W : Type} (h : handler W) repo (files : list string) :
  forall st w,
    value (run h (for_each files (load_file fromstring repo) st) w) = st
    /\ parsed_paths (trace (run h (for_each files (load_file fromstring repo) st) w))
       = files.
Proof.
  induction files as [|f files IH]; intros st w.
  - split; reflexivity.
  - cbn [for_each]. rewrite run_bind, load_file_run.
    destruct (IH st (snd (h _ (ParseFile f) w))) as [Hv Ht].
    destruct (run h (for_each files (load_file fromstring repo) st)
                (snd (h _ (ParseFile f) w))) as [[st' w'] t].
    unfold value, trace in *; simpl in *. subst st'. rewrite Ht.
    split; reflexivity.
Qed.

Lemma firstn_Forall {A : Type} (P : A -> Prop) (n : nat) (l : list A) :
  Forall P l -> Forall P (firstn n l).
Proof.
  intros H. revert n; induction H as [|x l Hx Hl IH]; intros [|n]; simpl;
    constructor; auto.
Qed.

Lemma walked_fzp_ends (walked : list (string * list string)) :
  Forall (fun p => Str.endswith ".fzp" p = true) (flat_map fzp_in walked).
Proof.
  induction walked as [|entry rest IH]; simpl; [constructor|].
  apply Forall_app. split; [apply fzp_in_ends | exact IH].
Qed.

(** X14: one sub-collection of a load.  When its directory does not
    exist the only call is the question whether it exists.  When it
    exists, the documents handed to the XML parser are the first fifty
    [.fzp] files of the walk of that directory, in the order of the
    walk, and no others. *)
Theorem load_repository_parses_first_fifty
  (fromstring : string -> result Element) {W : Type} (h : handler W) (w : W)
  (repo : string) (st : list FritzingComponent * FritzingService) :
  let directory := OsPath.join (repo_path (snd st)) [repo] in
  let present := fst (h _ (PathExists directory) w) in
  let w1 := snd (h _ (PathExists directory) w) in
  let walked := fst (h _ (Walk directory) w1) in
  (present = false ->
   trace (run h (load_repository fromstring repo st) w)
   = [Called (PathExists directory)])
  /\ (present = true ->
      parsed_paths (trace (run h (load_repository fromstring repo st) w))
      = firstn 50 (flat_map fzp_in walked))
  /\ (List.length (parsed_paths (trace (run h (load_repository fromstring repo st) w)))
      <= 50)%nat
  /\ Forall (fun p => Str.endswith ".fzp" p = true)
       (parsed_paths (trace (run h (load_repository fromstring repo st) w))).
Proof.
  intros directory present w1 walked.
  assert (Hrun : parsed_paths (trace (run h (load_repository fromstring repo st) w))
                 = if present then firstn 50 (flat_map fzp_in walked) else []).
  { unfold load_repository. cbv zeta. fold directory.
    unfold call, find_fzp_files, call. cbn [bind run].
    subst present w1 walked.
    destruct (h _ (PathExists directory) w) as [p w1]. cbn [fst snd].
    destruct p; [|reflexivity].
    cbn [bind run].
    destruct (h _ (Walk directory) w1) as [walked w2]. cbn [fst snd bind].
    destruct (load_files_run fromstring h repo (firstn 50 (flat_map fzp_in walked))
                st w2) as [_ Ht].
    destruct (run h (for_each (firstn 50 (flat_map fzp_in walked))
                       (load_file fromstring repo) st) w2) as [[st' w3] t].
    unfold trace in *; simpl in *. exact Ht. }
  split; [|split; [|split]].
  - intros Hp. unfold load_repository. cbv zeta. fold directory.
    unfold call. cbn [bind run]. subst present.
    destruct (h _ (PathExists directory) w) as [p w2]. simpl in Hp. subst p.
    reflexivity.
  - intros Hp. rewrite Hrun, Hp. reflexivity.
  - rewrite Hrun. destruct present; [apply firstn_le_length | apply Nat.le_0_l].
  - rewrite Hrun. destruct present; [|constructor].
    apply firstn_Forall. apply walked_fzp_ends.
Qed.

Lemma load_repository_parses_first_fifty_witness :
  List.length
    (parsed_paths
       (trace (run Sample.answer
                 (load_repository Sample.fromstring "core" ([], init))
                 Sample2.crowded))) = 50%nat
  /\ trace (run Sample.answer
              (load_repository Sample.fromstring "user" ([], init))
              Sample2.crowded)
     = [Called (PathExists "./backend/fritzing-parts/user")].
Proof.
  split.
  - rewrite (proj1 (proj2 (load_repository_parses_first_fifty Sample.fromstring
                             Sample.answer Sample2.crowded "core" ([], init)))).
    + reflexivity.
    + reflexivity.
  - apply (proj1 (load_repository_parses_first_fifty Sample.fromstring
                    Sample.answer Sample2.crowded "user" ([], init))).
    reflexivity.
Defined.

Lemma load_repository_value fromstring {W : Type} (h : handler W) (w : W) repo st :
  value (run h (load_repository fromstring repo st) w) = st.
Proof.
  unfold load_repository. cbv zeta. rewrite run_bind.
  destruct (run h (call (PathExists (OsPath.join (repo_path (snd st)) [repo]))) w)
    as [[present w1] t1].
  destruct present; [|reflexivity].
  rewrite run_bind.
  destruct (run h (find_fzp_files (OsPath.join (repo_path (snd st)) [repo])) w1)
    as [[fzp_files w2] t2].
  destruct (load_files_run fromstring h repo (firstn 50 fzp_files) st w2) as [Hv _].
  destruct (run h (for_each (firstn 50 fzp_files) (load_file fromstring repo) st) w2)
    as [[st2 w3] t3].
  exact Hv.
Qed.

Lemma load_files_trace fromstring {W : Type} (h : handler W) repo
  (files : list string) :
  forall st w,
    trace (run h (for_each files (load_file fromstring repo) st) w)
    = map (fun fzp_file => Called (ParseFile fzp_file)) files.
Proof.
  induction files as [|f files IH]; intros st w.
  - reflexivity.
  - cbn [for_each]. rewrite run_bind, load_file_run.
    specialize (IH st (snd (h _ (ParseFile f) w))).
    destruct (run h (for_each files (load_file fromstring repo) st)
                (snd (h _ (ParseFile f) w))) as [[st' w'] t].
    unfold trace in *; simpl in *. now rewrite IH.
Qed.

Lemma load_repository_trace fromstring {W : Type} (h : handler W) (w : W)
  (repo : string) (st : list FritzingComponent * FritzingService) :
  trace (run h (load_repository fromstring repo st) w)
  = Called (PathExists (OsPath.join (repo_path (snd st)) [repo]))
    :: (if fst (h _ (PathExists (OsPath.join (repo_path (snd st)) [repo])) w)
        then Called (Walk (OsPath.join (repo_path (snd st)) [repo]))
             :: map (fun fzp_file => Called (ParseFile fzp_file))
                  (firstn 50
                     (flat_map fzp_in
                        (fst (h _ (Walk (OsPath.join (repo_path (snd st)) [repo]))
                                (snd (h _ (PathExists
                                             (OsPath.join (repo_path (snd st)) [repo]))
                                        w))))))
        else []).
Proof.
  unfold load_repository. cbv zeta.
  unfold call, find_fzp_files, call. cbn [bind run].
  destruct (h _ (PathExists (OsPath.join (repo_path (snd st)) [repo])) w)
    as [p w1]. cbn [fst snd].
  destruct p; [|reflexivity].
  cbn [bind run].
  destruct (h _ (Walk (OsPath.join (repo_path (snd st)) [repo])) w1)
    as [walked w2]. cbn [fst snd bind].
  pose proof (load_files_trace fromstring h repo
                (firstn 50 (flat_map fzp_in walked)) st w2) as Ht.
  destruct (run h (for_each (firstn 50 (flat_map fzp_in walked))
                     (load_file fromstring repo) st) w2) as [[st' w3] t].
  unfold trace in *; simpl in *. now rewrite Ht.
Qed.

Lemma parsed_paths_parse_calls (files : list string) :
  parsed_paths (map (fun fzp_file => Called (ParseFile fzp_file)) files) = files.
Proof.
  induction files as [|f files IH]; simpl; [reflexivity | now rewrite IH].
Qed.

Lemma load_repository_bound fromstring {W : Type} (h : handler W) (w : W)
  (repo : string) (st : list FritzingComponent * FritzingService) :
  (List.length (parsed_paths (trace (run h (load_repository fromstring repo st) w)))
   <= 50)%nat
  /\ Forall (fun p => Str.endswith ".fzp" p = true)
       (parsed_paths (trace (run h (load_repository fromstring repo st) w))).
Proof.
  rewrite load_repository_trace.
  destruct (fst (h _ (PathExists (OsPath.join (repo_path (snd st)) [repo])) w)).
  - change (parsed_paths (Called (PathExists ?a) :: Called (Walk ?b) :: ?l))
      with (parsed_paths l).
    rewrite parsed_paths_parse_calls. split.
    + apply firstn_le_length.
    + apply firstn_Forall. apply walked_fzp_ends.
  - split; [apply Nat.le_0_l | constructor].
Qed.

Lemma load_repositories_bound fromstring {W : Type} (h : handler W)
  (repos : list string) :
  forall st w,
    (List.length (parsed_paths
                    (trace (run h (for_each repos (load_repository fromstring) st) w)))
     <= 50 * List.length repos)%nat
    /\ Forall (fun p => Str.endswith ".fzp" p = true)
         (parsed_paths
            (trace (run h (for_each repos (load_repository fromstring) st) w))).
Proof.
  induction repos as [|repo repos IH]; intros st w.
  - simpl. split; [apply Nat.le_0_l | constructor].
  - cbn [for_each]. rewrite run_bind.
    pose proof (load_repository_value fromstring h w repo st) as Hv.
    destruct (load_repository_bound fromstring h w repo st) as [Hlen Hall].
    destruct (run h (load_repository fromstring repo st) w) as [[st1 w1] t1].
    unfold value in Hv; simpl in Hv. subst st1.
    destruct (IH st w1) as [Hlen' Hall'].
    destruct (run h (for_each repos (load_repository fromstring) st) w1)
      as [[st2 w2] t2].
    unfold trace in *; cbn [fst snd] in *.
    rewrite parsed_paths_app, length_app. split.
    + cbn [List.length]. lia.
    + apply Forall_app. split; assumption.
Qed.

Lemma ensure_repository_parses_nothing {W : Type} (h : handler W) (w : W) self :
  parsed_paths (trace (run h (ensure_repository self) w)) = [].
Proof.
  rewrite ensure_repository_run.
  destruct (h _ (PathExists (repo_path self)) w) as [present w1].
  destruct present; [reflexivity|].
  destruct (h _ (PathExists "./backend/fritzing-parts") w1) as [found w2].
  destruct found; reflexivity.
Qed.

(** X15: a call of [load_components] hands at most 150 documents to the
    XML parser, fifty for each of [core], [contrib] and [user], and
    every one of them has a name that ends in [.fzp]. *)
Theorem load_parses_at_most_150
  (fromstring : string -> result Element) {W : Type} (h : handler W) (w : W)
  (self : FritzingService) :
  (List.length (parsed_paths (trace (run h (load_components fromstring self) w)))
   <= 150)%nat
  /\ Forall (fun p => Str.endswith ".fzp" p = true)
       (parsed_paths (trace (run h (load_components fromstring self) w))).
Proof.
  unfold load_components.
  destruct (loaded self && negb (Nat.eqb (List.length (components_cache self)) 0)).
  - simpl. split; [apply Nat.le_0_l | constructor].
  - rewrite run_bind.
    pose proof (ensure_repository_parses_nothing h w self) as He.
    destruct (run h (ensure_repository self) w) as [[self1 w1] t1].
    rewrite run_bind.
    destruct (load_repositories_bound fromstring h ["core"; "contrib"; "user"]
                ([], self1) w1) as [Hlen Hall].
    destruct (run h (for_each ["core"; "contrib"; "user"]
                       (load_repository fromstring) ([], self1)) w1)
      as [[[components self2] w2] t2].
    unfold trace in *; cbn [fst snd run] in *.
    rewrite !parsed_paths_app, He. cbn [app parsed_paths flat_map].
    rewrite app_nil_r. split; [exact Hlen | exact Hall].
Qed.

(* ===================================================================== *)
(** ** Further properties: witnesses and composition *)
(* ===================================================================== *)

Lemma local_graphic_never_fetched_witness :
  existsb is_fetch_call
    (trace (run (Sample2.fixed Sample2.unreadable_graphic)
              (get_component_svg init "led" "breadboard") tt)) = false
  /\ List.length
       (filter is_read_call
          (trace (run (Sample2.fixed Sample2.unreadable_graphic)
                    (get_component_svg init "led" "breadboard") tt))) = 1%nat.
Proof.
  apply (local_graphic_never_fetched (Sample2.fixed Sample2.unreadable_graphic) tt
           init "led" "breadboard" "led.svg").
  - intros w. reflexivity.
  - intros w. reflexivity.
  - left. reflexivity.
  - intros w. reflexivity.
Defined.

Lemma first_candidate_decides_witness :
  value (run (Sample2.fixed Sample2.unreadable_graphic)
           (get_component_svg init "led" "breadboard") tt) = (None, init)
  /\ trace (run (Sample2.fixed Sample2.unreadable_graphic)
              (get_component_svg init "led" "breadboard") tt)
     = [ Called (PathExists "./backend/fritzing-parts");
         Called (PathExists "./backend/fritzing-parts/svg/core/breadboard");
         Called (PathExists "./backend/fritzing-parts/svg/core/breadboard/led.svg");
         Called (ReadText "./backend/fritzing-parts/svg/core/breadboard/led.svg") ].
Proof.
  apply (first_candidate_decides (Sample2.fixed Sample2.unreadable_graphic) tt
           init "led" "breadboard" (Raise OSError));
    intros w; reflexivity.
Defined.

Lemma remote_graphic_needs_status_200_witness :
  value (run (Sample2.fixed Sample.no_graphics)
           (get_component_svg init "led" "breadboard") tt) = (None, init)
  /\ value (run (Sample2.fixed Sample2.remote_graphic)
              (get_component_svg init "led" "breadboard") tt)
     = (Some Sample.twin_svg, init).
Proof.
  split.
  - apply (proj1 (remote_graphic_needs_status_200
                    (Sample2.fixed Sample.no_graphics) tt init "led" "breadboard"
                    (Ok (404%Z, Ok "404: Not Found"))
                    (fun w => eq_refl) (fun w => eq_refl) (fun w => eq_refl))).
  - apply (proj1 (remote_graphic_needs_status_200
                    (Sample2.fixed Sample2.remote_graphic) tt init "led" "breadboard"
                    (Ok (200%Z, Ok Sample.twin_svg))
                    (fun w => eq_refl) (fun w => eq_refl) (fun w => eq_refl))).
Defined.

Lemma pins_carry_graphic_dimensions_witness :
  Forall (fun c => c_svgWidth c = Some 36%float /\ c_svgHeight c = Some 79.2%float)
    (connectors
       (fst (value (run Sample.answer
                      (update_component_with_connector_positions
                         Sample.fromstring init Sample.led)
                      (Sample.with_graphic Sample.twin_svg))))).
Proof.
  apply (pins_carry_graphic_dimensions Sample.fromstring Sample.answer
           (Sample.with_graphic Sample.twin_svg) init Sample.led Sample.twin_svg);
    reflexivity.
Defined.

Lemma empty_identifier_matches_everything_witness :
  c_x (update_connector [Sample.elsewhere; Sample.at_pin3] 72 36 Sample2.nameless_pin)
  = PyFloat 9
  /\ matches Sample.pin3 {| sc_id := ""; sc_x := PyFloat 5; sc_y := PyFloat 6 |} = true.
Proof.
  split.
  - apply (proj1 (proj1 empty_identifier_matches_everything
                    Sample.elsewhere [Sample.at_pin3] 72%float 36%float
                    Sample2.nameless_pin eq_refl)).
  - apply (proj2 empty_identifier_matches_everything Sample.pin3). reflexivity.
Defined.

(** X16: reconciling twice is reconciling once.  A pin that has been
    updated against a coordinate list and dimensions is left as it is by
    a second update against the same list and dimensions, and so is a
    component rebuilt from a graphic text when rebuilt again from the
    same text. *)
Theorem reconciliation_is_idempotent
  (fromstring : string -> result Element) (svg_connectors : list SvgConnector)
  (width height : float) (connector : Connector)
  (component : FritzingComponent) (svg_content : string) :
  update_connector svg_connectors width height
    (update_connector svg_connectors width height connector)
  = update_connector svg_connectors width height connector
  /\ reconcile fromstring (reconcile fromstring component svg_content) svg_content
     = reconcile fromstring component svg_content.
Proof.
  assert (Hone : forall scs w h c,
             update_connector scs w h (update_connector scs w h c)
             = update_connector scs w h c).
  { intros scs w h c. unfold update_connector at 1.
    unfold find_svg_connector.
    change (matches (update_connector scs w h c)) with (matches c).
    unfold update_connector, find_svg_connector. simpl.
    destruct (List.find (matches c) scs); reflexivity. }
  split; [apply Hone|].
  unfold reconcile.
  destruct (get_svg_dimensions fromstring svg_content) as [w h].
  unfold with_connectors; simpl. f_equal.
  unfold updated_connectors. rewrite map_map.
  apply map_ext. intros c. apply Hone.
Qed.

(* ===================================================================== *)
(** ** Further properties: identifiers of extracted coordinates *)
(* ===================================================================== *)

Lemma string_length_app (a b : string) :
  String.length (a ++ b) = (String.length a + String.length b)%nat.
Proof. induction a as [|c a IH]; simpl; [reflexivity | now rewrite IH]. Qed.

(** An occurrence of [old] that starts in [pre] cannot reach a character
    that does not occur in [old]. *)
Lemma startswith_stays_before (old pre rest : string) (a : ascii) :
  has_char a old = false ->
  Str.startswith old (pre ++ String a rest) = true ->
  (String.length old <= String.length pre)%nat.
Proof.
  revert pre; induction old as [|c old IH]; intros pre Ha H; simpl.
  - apply Nat.le_0_l.
  - simpl in Ha. apply orb_false_iff in Ha. destruct Ha as [Hac Ha].
    destruct pre as [|x pre]; simpl in H.
    + apply andb_true_iff in H. destruct H as [Hca _].
      rewrite Ascii.eqb_sym in Hca. congruence.
    + apply andb_true_iff in H. destruct H as [_ H].
      simpl. apply le_n_S. apply (IH pre Ha H).
Qed.

(** Removing the occurrences of [c0 old'] leaves untouched a stretch of
    text without [c0]. *)
Lemma replace_through (c0 : ascii) (old' m post : string) :
  has_char c0 m = false ->
  Str.replace_from (String c0 old') "" 0 (m ++ post)
  = m ++ Str.replace_from (String c0 old') "" 0 post.
Proof.
  induction m as [|x m IH]; intros H.
  - reflexivity.
  - simpl in H. apply orb_false_iff in H. destruct H as [Hx H].
    change (String x m ++ post) with (String x (m ++ post)).
    cbn [Str.replace_from Str.startswith]. rewrite Hx. cbn [andb].
    now rewrite (IH H).
Qed.

Lemma replace_keeps (c0 a : ascii) (old' m post : string) :
  has_char c0 (String a m) = false ->
  has_char a (String c0 old') = false ->
  forall pre skip,
    (skip <= String.length pre)%nat ->
    exists pre' post',
      Str.replace_from (String c0 old') "" skip (pre ++ String a m ++ post)
      = pre' ++ String a m ++ post'.
Proof.
  intros Hm Ha. induction pre as [|x pre IH]; intros skip Hskip.
  - simpl in Hskip. assert (skip = 0%nat) by lia. subst skip.
    exists "", (Str.replace_from (String c0 old') "" 0 post).
    change ("" ++ String a m ++ post) with ((String a m) ++ post).
    rewrite (replace_through c0 old' (String a m) post Hm). reflexivity.
  - change (String x pre ++ String a m ++ post)
      with (String x (pre ++ String a m ++ post)).
    destruct skip as [|k].
    + cbn [Str.replace_from].
      destruct (Str.startswith (String c0 old') (String x (pre ++ String a m ++ post)))
        eqn:E.
      * pose proof (startswith_stays_before (String c0 old') (String x pre)
                      (m ++ post) a Ha E) as Hlen.
        simpl in Hlen.
        destruct (IH (String.length (String c0 old') - 1)%nat) as [pre' [post' ->]].
        { simpl. lia. }
        exists pre', post'. reflexivity.
      * destruct (IH 0%nat (Nat.le_0_l _)) as [pre' [post' ->]].
        exists (String x pre'), post'. reflexivity.
    + cbn [Str.replace_from].
      destruct (IH k) as [pre' [post' ->]].
      { simpl in Hskip. lia. }
      exists pre', post'. reflexivity.
Qed.

Lemma lower_connector_shape (m : string) :
  Str.lower m = "connector" ->
  exists a m',
    m = String a m'
    /\ has_char "p" m = false
    /\ has_char a "pin" = false /\ has_char a "pad" = false.
Proof.
  intros H.
  destruct m as [|a1 [|a2 [|a3 [|a4 [|a5 [|a6 [|a7 [|a8 [|a9 [|a10 m]]]]]]]]]];
    simpl in H; try discriminate H.
  injection H as H1 H2 H3 H4 H5 H6 H7 H8 H9.
  assert (Hp : forall x l, Str.lower_char x = l -> l <> "p"%char ->
                           Ascii.eqb "p" x = false).
  { intros x l Hx Hl. apply Ascii.eqb_neq. intros <-. apply Hl.
    rewrite <- Hx. reflexivity. }
  exists a1, (String a2 (String a3 (String a4 (String a5 (String a6
            (String a7 (String a8 (String a9 "")))))))).
  split; [reflexivity|]. split.
  - cbn [has_char].
    rewrite (Hp _ _ H1), (Hp _ _ H2), (Hp _ _ H3), (Hp _ _ H4), (Hp _ _ H5),
      (Hp _ _ H6), (Hp _ _ H7), (Hp _ _ H8), (Hp _ _ H9); try discriminate.
    reflexivity.
  - assert (Hq : forall y, y <> "c"%char -> Str.lower_char y = y ->
                           Ascii.eqb a1 y = false).
    { intros y Hy Hl. apply Ascii.eqb_neq. intros ->. apply Hy.
      rewrite <- Hl. exact H1. }
    split; cbn [has_char].
    + rewrite !Hq; try discriminate; reflexivity.
    + rewrite !Hq; try discriminate; reflexivity.
Qed.

Lemma base_id_keeps_connector (elem_id : string) :
  is_pin_candidate elem_id = true ->
  contains_ignoring_case "connector" (base_id elem_id).
Proof.
  intros Hc. unfold is_pin_candidate in Hc.
  apply andb_true_iff in Hc. destruct Hc as [Hc _].
  change (Str.contains "connector") with (Str.contains (Str.lower "connector")) in Hc.
  apply contains_lower in Hc.
  destruct Hc as [pre [m [post [-> Hm]]]].
  change (Str.lower "connector") with "connector" in Hm.
  destruct (lower_connector_shape m Hm) as [a [m' [-> [Hp [Hpin Hpad]]]]].
  unfold base_id, Str.replace.
  destruct (replace_keeps "p" a "in" m' post Hp Hpin pre 0 (Nat.le_0_l _))
    as [pre1 [post1 ->]].
  destruct (replace_keeps "p" a "ad" m' post1 Hp Hpad pre1 0 (Nat.le_0_l _))
    as [pre2 [post2 ->]].
  exists pre2, (String a m'), post2. split; [reflexivity | exact Hm].
Qed.

Lemma scan_elements_ids (P : SvgConnector -> Prop) :
  (forall elem_id x y, is_pin_candidate elem_id = true ->
                       P {| sc_id := base_id elem_id; sc_x := x; sc_y := y |}) ->
  forall elems connectors found,
    Forall P connectors ->
    scan_elements connectors elems = Ok found ->
    Forall P found.
Proof.
  intros HP. induction elems as [|e rest IH]; intros connectors found Hacc Hscan.
  - simpl in Hscan. injection Hscan as <-. exact Hacc.
  - simpl in Hscan. unfold scan_element in Hscan.
    destruct (is_pin_candidate (ET.get_or e "id" "")) eqn:Hc.
    + destruct (position_of e) as [p|ex]; simpl in Hscan; [|discriminate].
      apply (IH _ _ (proj2 (Forall_app _ _ _)
                       (conj Hacc (Forall_cons _ (HP _ _ _ Hc) (Forall_nil _))))
                Hscan).
    + simpl in Hscan. apply (IH _ _ Hacc Hscan).
Qed.

(** X17: every coordinate [parse_connector_positions] returns has an
    identifier that still contains [connector], compared
    case-insensitively: removing [pin] and [pad] from a candidate's
    identifier cannot break it.  So no extracted identifier is empty. *)
Theorem extracted_identifiers_contain_connector
  (fromstring : string -> result Element) (component_id svg_content : string) :
  Forall (fun sc => contains_ignoring_case "connector" (sc_id sc) /\ sc_id sc <> "")
    (parse_connector_positions fromstring component_id svg_content).
Proof.
  unfold parse_connector_positions.
  destruct (fromstring svg_content) as [root|ex]; simpl; [|constructor].
  destruct (scan_elements [] (ET.iter root)) as [found|ex] eqn:E; simpl;
    [|constructor].
  apply (scan_elements_ids _) with (elems := ET.iter root) (connectors := []);
    [|constructor|exact E].
  intros elem_id x y Hc. simpl.
  pose proof (base_id_keeps_connector elem_id Hc) as H.
  split; [exact H|].
  destruct H as [pre [m [post [Heq Hm]]]]. rewrite Heq.
  destruct pre; simpl; [|discriminate].
  destruct m; [discriminate Hm | discriminate].
Qed.

Lemma string_app_nil_r (s : string) : s ++ "" = s.
Proof. induction s as [|c s IH]; simpl; [reflexivity | now rewrite IH]. Qed.

Lemma replace_without_first_char (c0 : ascii) (old' s : string) :
  has_char c0 s = false ->
  Str.replace (String c0 old') "" s = s.
Proof.
  intros H. unfold Str.replace.
  rewrite <- (string_app_nil_r s) at 1.
  rewrite (replace_through c0 old' s "" H). simpl. apply string_app_nil_r.
Qed.

Lemma base_id_strips_suffix (name suffix : string) :
  has_char "p" name = false ->
  suffix = "pin" \/ suffix = "pad" ->
  base_id (name ++ suffix) = name.
Proof.
  intros Hp Hs. unfold base_id.
  assert (H1 : Str.replace "pin" "" (name ++ suffix)
               = name ++ Str.replace "pin" "" suffix).
  { unfold Str.replace. apply (replace_through "p" "in" name suffix Hp). }
  rewrite H1. destruct Hs as [-> | ->].
  - change (Str.replace "pin" "" "pin") with "". rewrite string_app_nil_r.
    apply (replace_without_first_char "p" "ad" name Hp).
  - change (Str.replace "pin" "" "pad") with "pad".
    unfold Str.replace.
    rewrite (replace_through "p" "ad" name "pad" Hp). simpl.
    apply string_app_nil_r.
Qed.

(** X18: the naming convention of the parts library works.  For a pin
    whose declared id contains [connector] and no letter [p], a graphic
    element named with that id followed by [pin] or [pad] is a
    candidate, its coordinate gets exactly the pin's id as identifier,
    and the condition of the reconciler accepts it for the pin. *)
Theorem conventional_identifier_matches
  (connector : Connector) (elem : Element) (suffix : string) (p : number * number) :
  Str.contains "connector" (Str.lower (c_id connector)) = true ->
  has_char "p" (c_id connector) = false ->
  suffix = "pin" \/ suffix = "pad" ->
  elem_id elem = c_id connector ++ suffix ->
  position_of elem = Ok p ->
  is_pin_candidate (elem_id elem) = true
  /\ scan_element [] elem
     = Ok [{| sc_id := c_id connector; sc_x := fst p; sc_y := snd p |}]
  /\ matches connector {| sc_id := c_id connector; sc_x := fst p; sc_y := snd p |}
     = true.
Proof.
  intros Hc Hp Hs Hid Hpos.
  assert (Hcand : is_pin_candidate (elem_id elem) = true).
  { unfold is_pin_candidate. rewrite Hid, lower_app.
    apply andb_true_iff. split.
    - apply contains_spec in Hc. destruct Hc as [before [after Hc]].
      apply contains_spec. exists before, (after ++ Str.lower suffix).
      rewrite Hc. now rewrite !string_app_assoc.
    - apply orb_true_iff. destruct Hs as [-> | ->]; [left | right];
        apply contains_spec; exists (Str.lower (c_id connector)), "";
        reflexivity. }
  split; [exact Hcand|]. split.
  - unfold elem_id in *. rewrite (scan_candidate [] elem p Hcand Hpos).
    rewrite Hid, (base_id_strips_suffix _ _ Hp Hs). reflexivity.
  - unfold matches; simpl. rewrite String.eqb_refl.
    apply orb_true_iff; left. apply orb_true_iff; left. apply orb_true_r.
Qed.

Lemma conventional_identifier_matches_witness :
  is_pin_candidate (elem_id Sample.twin_circle) = true
  /\ scan_element [] Sample.twin_circle
     = Ok [{| sc_id := "connector0"; sc_x := PyFloat 1; sc_y := PyFloat 2 |}]
  /\ matches Sample.anode
       {| sc_id := "connector0"; sc_x := PyFloat 1; sc_y := PyFloat 2 |} = true.
Proof.
  apply (conventional_identifier_matches Sample.anode Sample.twin_circle "pin"
           (PyFloat 1, PyFloat 2)).
  - reflexivity.
  - reflexivity.
  - left. reflexivity.
  - reflexivity.
  - reflexivity.
Defined.

(* ===================================================================== *)
(** ** The second load *)
(* ===================================================================== *)



